(** * rust-media-pipeline: the Python front end

    A shallow embedding of [python_frontend/worker.py] (the bridge that
    runs the Rust worker binary for one job) and of the job routes of
    [python_frontend/app.py] (list, submit, upload-and-process), with the
    properties the specification states about them.

    Python values that travel as JSON are values of [json]; a Python
    call that may raise is an [outcome]; the Redis queue and the input
    directory are an explicit [AppState] that the handlers thread. *)

From Stdlib Require Import String Ascii List ZArith Lia Bool PrimFloat DecimalString.
Import ListNotations.

Set Warnings "-register-all".

Open Scope string_scope.

(* ================================================================= *)
(** ** Python values and exceptions *)

Module Py.

(** What [json.loads] produces and [json.dumps]/[jsonify] consume:
    [None], [bool], [int], [float], [str], [list] and [dict].  A [dict]
    keeps its insertion order, so it is a list of items (keys distinct). *)
Inductive json : Type :=
| JNull
| JBool (b : bool)
| JInt (z : Z)
| JFloat (f : float)
| JStr (s : string)
| JArr (items : list json)
| JObj (items : list (string * json)).

(** The exception classes that occur in the two files. All of them derive
    from [Exception]. *)
Inductive exc_class : Type :=
| FileNotFoundError
| RuntimeError
| TimeoutExpired
| AttributeError
| TypeError
| KeyError
| OSError
| RecursionError
| ValueError
| UnicodeDecodeError.

(** An exception object: its class and [str(e)]. *)
Record pyexc : Type := mkExc { exc_type : exc_class; exc_str : string }.

(** The outcome of a Python call. *)
Inductive outcome (A : Type) : Type :=
| Return (a : A)
| Raise (e : pyexc).
Arguments Return {A} a.
Arguments Raise {A} e.

Definition bind {A B : Type} (r : outcome A) (k : A -> outcome B) : outcome B :=
  match r with
  | Return a => k a
  | Raise e => Raise e
  end.

Notation "x <- r ;; k" := (bind r (fun x => k))
  (at level 61, r at next level, right associativity).

Definition exc_class_eqb (a b : exc_class) : bool :=
  match a, b with
  | FileNotFoundError, FileNotFoundError
  | RuntimeError, RuntimeError
  | TimeoutExpired, TimeoutExpired
  | AttributeError, AttributeError
  | TypeError, TypeError
  | KeyError, KeyError
  | OSError, OSError
  | RecursionError, RecursionError
  | ValueError, ValueError
  | UnicodeDecodeError, UnicodeDecodeError => true
  | _, _ => false
  end.

(** What [json.loads] does with a text: it returns the value, or raises
    [json.JSONDecodeError] because the text is malformed, or gives up
    with another exception: [RecursionError] on nesting that is too deep,
    [ValueError] on an integer with too many digits. Only the second is
    what [except json.JSONDecodeError] catches. *)
Inductive abort_kind : Type := NestingTooDeep | IntegerTooLong.

Inductive loads_result : Type :=
| Loaded (v : json)
| Malformed (text : string)
| Aborted (kind : abort_kind) (text : string).

Definition abort_exc (kind : abort_kind) (text : string) : pyexc :=
  mkExc (match kind with
         | NestingTooDeep => RecursionError
         | IntegerTooLong => ValueError
         end) text.

(** Line feed and the double quote, which a string literal cannot hold. *)
Definition nl : string := String "010"%char EmptyString.
Definition dq : string := String "034"%char EmptyString.

(** [str(n)] for a Python [int]. *)
Definition str_int (z : Z) : string := NilZero.string_of_int (Z.to_int z).

(** [type(v).__name__] *)
Definition type_name (v : json) : string :=
  match v with
  | JNull => "NoneType"
  | JBool _ => "bool"
  | JInt _ => "int"
  | JFloat _ => "float"
  | JStr _ => "str"
  | JArr _ => "list"
  | JObj _ => "dict"
  end.

(** [bool(v)]: [None], [False], zero, and the empty string, list and dict
    are false. *)
Definition truthy (v : json) : bool :=
  match v with
  | JNull => false
  | JBool b => b
  | JInt z => negb (z =? 0)%Z
  | JFloat f => negb (PrimFloat.eqb f 0%float)
  | JStr s => negb (s =? EmptyString)
  | JArr l => negb (Nat.eqb (List.length l) 0)
  | JObj d => negb (Nat.eqb (List.length d) 0)
  end.

(** Lookup in a [dict]. *)
Fixpoint dict_lookup (d : list (string * json)) (k : string) : option json :=
  match d with
  | [] => None
  | (k', v) :: rest => if k' =? k then Some v else dict_lookup rest k
  end.

Definition dict_keys (d : list (string * json)) : list string := map fst d.

(** [d[k] = v] on a [dict]: an existing key keeps its place. *)
Fixpoint dict_set (d : list (string * json)) (k : string) (v : json)
  : list (string * json) :=
  match d with
  | [] => [(k, v)]
  | (k', v') :: rest =>
      if k' =? k then (k', v) :: rest else (k', v') :: dict_set rest k v
  end.

(** [v.get(k, default)]: only a [dict] has the method. *)
Definition py_get (v : json) (k : string) (default : json) : outcome json :=
  match v with
  | JObj d =>
      match dict_lookup d k with
      | Some x => Return x
      | None => Return default
      end
  | _ => Raise (mkExc AttributeError
                  ("'" ++ type_name v ++ "' object has no attribute 'get'"))
  end.

(** [k in v] for a string [k]: key membership in a [dict], element
    equality in a [list], substring in a [str]; the other types are not
    containers. *)
Definition is_substring (k s : string) : bool :=
  match index 0 k s with
  | Some _ => true
  | None => false
  end.

Definition py_in (k : string) (v : json) : outcome bool :=
  match v with
  | JObj d =>
      Return (match dict_lookup d k with Some _ => true | None => false end)
  | JArr l =>
      Return (existsb (fun x => match x with
                                | JStr s => s =? k
                                | _ => false
                                end) l)
  | JStr s => Return (is_substring k s)
  | _ => Raise (mkExc TypeError
                  ("argument of type '" ++ type_name v ++ "' is not iterable"))
  end.

(** [v[k]] for a string [k]. *)
Definition py_getitem (v : json) (k : string) : outcome json :=
  match v with
  | JObj d =>
      match dict_lookup d k with
      | Some x => Return x
      | None => Raise (mkExc KeyError ("'" ++ k ++ "'"))
      end
  | JArr _ =>
      Raise (mkExc TypeError "list indices must be integers or slices, not str")
  | JStr _ =>
      Raise (mkExc TypeError "string indices must be integers, not 'str'")
  | _ =>
      Raise (mkExc TypeError ("'" ++ type_name v ++ "' object is not subscriptable"))
  end.

End Py.

(* ================================================================= *)
(** ** worker.py: the bridge to the Rust worker *)

Module Worker.
Import Py.

(** [subprocess.CompletedProcess] with [capture_output=True, text=True]. *)
Record CompletedProcess : Type := mkCompleted {
  returncode : Z;
  stdout : string;
  stderr : string
}.

(** What the operating system does with one [subprocess.run] call, given
    the argument vector and the time budget: the child cannot be created;
    or it exits within the budget, with output that is text, or with
    output that [text=True] cannot decode; or it is still running at the
    deadline. *)
Inductive behaviour : Type :=
| SpawnFails (e : pyexc)
| ExitsInTime (cp : CompletedProcess)
| OutputNotText (text : string)
| StillRunning.

(** What happens to child processes during a call. *)
Inductive event : Type :=
| Spawned (argv : list string) (timeout : Z)
| Killed.

(** Everything [execute_rust_worker] reads that is not its argument: the
    module constants, the loaded configuration, the file system, the
    operating system, and the [json] library. [RUST_WORKER_PATH] is the
    path as [str] gives it; [repr_other] is [str] of a float, list or
    dict. *)
Record Env : Type := mkEnv {
  RUST_WORKER_PATH : string;
  timeout_seconds : Z;            (* config["processing"]["timeout_seconds"] *)
  path_exists : bool;             (* RUST_WORKER_PATH.exists() *)
  os_run : list string -> Z -> behaviour;
  json_dumps : json -> string;
  json_loads : string -> loads_result;
  repr_other : json -> string
}.

(** [str(v)], which is what an f-string field [{v}] inserts. *)
Definition py_str (w : Env) (v : json) : string :=
  match v with
  | JStr s => s
  | JNull => "None"
  | JBool true => "True"
  | JBool false => "False"
  | JInt z => str_int z
  | _ => repr_other w v
  end.

(** [subprocess.run(argv, capture_output=True, text=True, timeout=t,
    check=False)]: a failure to create the child raises before any child
    exists; output that cannot be decoded raises [UnicodeDecodeError]
    once the child has exited; on expiry of the time budget the child is
    killed and waited for, then [TimeoutExpired] is raised; with
    [check=False] a non-zero exit status is returned, not raised. *)
Definition subprocess_run (w : Env) (argv : list string) (t : Z)
  : list event * outcome CompletedProcess :=
  match os_run w argv t with
  | SpawnFails e => ([], Raise e)
  | ExitsInTime cp => ([Spawned argv t], Return cp)
  | OutputNotText text =>
      ([Spawned argv t], Raise (mkExc UnicodeDecodeError text))
  | StillRunning =>
      ([Spawned argv t; Killed],
       Raise (mkExc TimeoutExpired
                ("Command timed out after " ++ str_int t ++ " seconds")))
  end.

(** Lines 36-46: the process exited with status 0. An exception of
    [json.loads] other than [JSONDecodeError] leaves the inner [try]. *)
Definition on_success (w : Env) (r : CompletedProcess) : outcome json :=
  match json_loads w (stdout r) with
  | Loaded output => Return output
  | Malformed _ =>
      Return (JObj [("success", JBool true);
                    ("message", JStr "Job completed");
                    ("output", JStr (stdout r));
                    ("stderr", JStr (stderr r))])
  | Aborted kind text => Raise (abort_exc kind text)
  end.

(** Lines 47-56: the process exited with a non-zero status. Every branch
    raises; [.get] itself raises when the document is not a dict, and an
    exception of [json.loads] other than [JSONDecodeError] leaves the
    inner [try] as it is. *)
Definition on_failure (w : Env) (r : CompletedProcess) : outcome json :=
  match json_loads w (stdout r) with
  | Loaded error_output =>
      msg <- py_get error_output "message" (JStr "Unknown error") ;;
      Raise (mkExc RuntimeError ("Rust worker failed: " ++ py_str w msg))
  | Malformed _ =>
      Raise (mkExc RuntimeError
               ("Rust worker failed with exit code " ++ str_int (returncode r)
                ++ nl ++ "stdout: " ++ stdout r
                ++ nl ++ "stderr: " ++ stderr r))
  | Aborted kind text => Raise (abort_exc kind text)
  end.

(** Lines 28-56: the body of the [try]. *)
Definition try_body (w : Env) (job_json : string)
  : list event * outcome json :=
  let '(trace, ran) :=
    subprocess_run w [RUST_WORKER_PATH w; job_json] (timeout_seconds w) in
  (trace,
   r <- ran ;;
   if (returncode r =? 0)%Z then on_success w r else on_failure w r).

(** Lines 58-63: the two [except] clauses of the [try], in order. The
    second one, [except Exception], takes every exception that is not a
    [TimeoutExpired], the [RuntimeError]s raised in the body included. *)
Definition handlers (w : Env) (r : outcome json) : outcome json :=
  match r with
  | Return v => Return v
  | Raise e =>
      if exc_class_eqb (exc_type e) TimeoutExpired
      then Raise (mkExc RuntimeError
                    ("Job timed out after " ++ str_int (timeout_seconds w)
                     ++ " seconds"))
      else Raise (mkExc RuntimeError
                    ("Failed to execute Rust worker: " ++ exc_str e))
  end.

Definition execute_rust_worker (w : Env) (job_payload : json)
  : list event * outcome json :=
  if negb (path_exists w) then
    ([], Raise (mkExc FileNotFoundError
                  ("Rust worker binary not found at " ++ RUST_WORKER_PATH w
                   ++ ". Please build it first with: "
                   ++ "cd rust_worker && cargo build --release")))
  else
    let job_json := json_dumps w job_payload in
    let '(trace, r) := try_body w job_json in
    (trace, handlers w r).

(** Line 29: the argument vector of the one process a call starts. *)
Definition argv_for (w : Env) (job_payload : json) : list string :=
  [RUST_WORKER_PATH w; json_dumps w job_payload].

(** The two failures the specification names by kind, as the exceptions
    the function raises for them. *)
Definition ExecutorUnavailable (w : Env) : pyexc :=
  mkExc FileNotFoundError
    ("Rust worker binary not found at " ++ RUST_WORKER_PATH w
     ++ ". Please build it first with: "
     ++ "cd rust_worker && cargo build --release").

Definition TimedOut (w : Env) : pyexc :=
  mkExc RuntimeError
    ("Job timed out after " ++ str_int (timeout_seconds w) ++ " seconds").

End Worker.

(* ================================================================= *)
(** ** The job store (RQ on Redis), as far as the two files use it *)

Module Rq.
Import Py.

Inductive JobStatus : Type := queued | started | finished | failed.

(** [job.get_status()] as it is serialised. *)
Definition status_str (s : JobStatus) : string :=
  match s with
  | queued => "queued"
  | started => "started"
  | finished => "finished"
  | failed => "failed"
  end.

(** A [datetime.datetime] by its attributes. *)
Record datetime : Type := mkDatetime {
  year : Z;
  month : Z;
  day : Z;
  hour : Z;
  minute : Z;
  second : Z;
  microsecond : Z
}.

(** The attributes of an RQ job that [app.py] reads, and the argument the
    job was enqueued with. [exc_info] records the exception of a failed
    job. *)
Record Job : Type := mkJob {
  id : string;
  status : JobStatus;
  created_at : option datetime;
  enqueued_at : option datetime;
  started_at : option datetime;
  ended_at : option datetime;
  result : option json;
  exc_info : option pyexc;
  args : json;
  job_timeout : Z
}.

(** Modelled from the spec: [queue.enqueue] of the RQ library, which is
    not part of the sources (section 4.1: generates a fresh unique id,
    persists a record with status queued and created_at/enqueued_at set,
    and returns without waiting for execution). The fresh id and the two
    clock readings, one for each timestamp, are given. *)
Definition enqueue (jobs : list Job) (fresh_id : string)
  (created enqueued : datetime) (payload : json) (timeout : Z)
  : list Job * Job :=
  let job := mkJob fresh_id queued (Some created) (Some enqueued) None None
                   None None payload timeout in
  ((jobs ++ [job])%list, job).

(** Modelled from the spec: the dispatcher (the RQ worker process), which
    is not part of the sources (section 4.3: the job is claimed, which sets
    started_at, immediately before the bridge is invoked; a returned result
    makes it finished and is stored; any raised error makes it failed and is
    stored; both set ended_at). *)
Definition perform_job (w : Worker.Env) (t_start t_end : datetime) (job : Job)
  : list Worker.event * Job :=
  let '(trace, r) := Worker.execute_rust_worker w (args job) in
  (trace,
   match r with
   | Return v =>
       mkJob (id job) finished (created_at job) (enqueued_at job)
             (Some t_start) (Some t_end) (Some v) None
             (args job) (job_timeout job)
   | Raise e =>
       mkJob (id job) failed (created_at job) (enqueued_at job)
             (Some t_start) (Some t_end) None (Some e)
             (args job) (job_timeout job)
   end).

End Rq.

(* ================================================================= *)
(** ** app.py: the job routes *)

Module App.
Import Py Rq.

(** The module-level constants and the library functions the routes call:
    [Path(name).suffix], [str(dir / name)], [datetime.isoformat] and
    [json.loads]. *)
Record Env : Type := mkEnv {
  INPUT_PATH : string;
  OUTPUT_PATH : string;
  timeout_seconds : Z;            (* config["processing"]["timeout_seconds"] *)
  suffix : string -> string;
  joinpath : string -> string -> string;
  isoformat : datetime -> string;
  json_loads : string -> loads_result
}.

(** What one request draws from outside: [uuid.uuid4()], the id RQ gives
    the new job, and the clock as RQ reads it when it creates the job and
    when it enqueues it. *)
Record Fresh : Type := mkFresh {
  uuid4 : string;
  new_job_id : string;
  created_now : datetime;
  enqueued_now : datetime
}.

(** The state the routes share: [queue.jobs] and the files written under
    the storage directories (path and content). *)
Record AppState : Type := mkState {
  queue_jobs : list Job;
  saved_files : list (string * string)
}.

(** A Flask response: status code and JSON body. *)
Inductive http : Type := Response (code : nat) (body : json).

Definition jsonify (body : json) : http := Response 200 body.

(** [t.isoformat() if t else None] *)
Definition iso_or_none (a : Env) (t : option datetime) : json :=
  match t with
  | Some x => JStr (isoformat a x)
  | None => JNull
  end.

(** Lines 35-40: the dict appended for one job. *)
Definition job_projection (a : Env) (job : Job) : json :=
  JObj [("id", JStr (id job));
        ("status", JStr (status_str (status job)));
        ("created_at", iso_or_none a (created_at job));
        ("enqueued_at", iso_or_none a (enqueued_at job))].

(** Lines 30-42: the loop appends one projection per job of [queue.jobs]. *)
Definition list_jobs (a : Env) (st : AppState) : http :=
  let jobs := fold_left (fun jobs job => (jobs ++ [job_projection a job])%list)
                        (queue_jobs st) [] in
  jsonify (JObj [("jobs", JArr jobs)]).

Definition required_fields : list string :=
  ["task"; "input_path"; "output_path"].

(** Lines 100-102: the first required field that is not [in data]. *)
Fixpoint first_missing (fields : list string) (data : json)
  : outcome (option string) :=
  match fields with
  | [] => Return None
  | field :: rest =>
      present <- py_in field data ;;
      if negb present then Return (Some field) else first_missing rest data
  end.

(** Lines 104-109 *)
Definition make_payload (data : json) : outcome json :=
  task <- py_getitem data "task" ;;
  input_path <- py_getitem data "input_path" ;;
  output_path <- py_getitem data "output_path" ;;
  params <- py_get data "params" (JObj []) ;;
  Return (JObj [("task", task);
                ("input_path", input_path);
                ("output_path", output_path);
                ("params", params)]).

(** Lines 113-117: [queue.enqueue(execute_rust_worker, job_payload,
    job_timeout=...)]. *)
Definition queue_enqueue (a : Env) (fr : Fresh) (st : AppState)
  (job_payload : json) : AppState * Job :=
  let '(jobs, job) :=
    enqueue (queue_jobs st) (new_job_id fr) (created_now fr)
            (enqueued_now fr) job_payload (timeout_seconds a) in
  (mkState jobs (saved_files st), job).

(** Lines 92-123. [data] is what [request.get_json()] returned; an
    exception that leaves the function is Flask's to report. *)
Definition enqueue_job (a : Env) (fr : Fresh) (st : AppState) (data : json)
  : AppState * outcome http :=
  if negb (truthy data) then
    (st, Return (Response 400 (JObj [("error", JStr "No JSON data provided")])))
  else
    match first_missing required_fields data with
    | Raise e => (st, Raise e)
    | Return (Some field) =>
        (st, Return (Response 400
               (JObj [("error", JStr ("Missing required field: " ++ field))])))
    | Return None =>
        match make_payload data with
        | Raise e => (st, Raise e)
        | Return job_payload =>
            let '(st', job) := queue_enqueue a fr st job_payload in
            (st', Return (jsonify
                    (JObj [("job_id", JStr (id job));
                           ("status", JStr (status_str (status job)));
                           ("payload", job_payload)])))
        end
    end.

(** An uploaded file of [request.files]. *)
Record FileStorage : Type := mkFile {
  filename : string;
  content : string
}.

(** The parts of a multipart request that [process_file] reads. *)
Record Request : Type := mkRequest {
  files_file : option FileStorage;     (* request.files["file"] *)
  form_task : option string;           (* request.form.get("task") *)
  form_params : option string          (* the params form field *)
}.

(** Lines 148-151: the params as a value. Malformed text becomes an empty
    mapping; any other exception of [json.loads] is not caught. *)
Definition parse_params (a : Env) (params : string) : outcome json :=
  match json_loads a params with
  | Loaded v => Return v
  | Malformed _ => Return (JObj [])
  | Aborted kind text => Raise (abort_exc kind text)
  end.

(** Lines 126-173. The file is saved before the params are parsed, so an
    exception of the parsing leaves the function with the file written
    and nothing enqueued; such an exception is Flask's to report. *)
Definition process_file (a : Env) (fr : Fresh) (st : AppState) (req : Request)
  : AppState * outcome http :=
  match files_file req with
  | None =>
      (st, Return (Response 400 (JObj [("error", JStr "No file provided")])))
  | Some file =>
      let task := form_task req in
      let params := match form_params req with
                    | Some p => p
                    | None => "{}"
                    end in
      match task with
      | None =>
          (st, Return (Response 400
                         (JObj [("error", JStr "No task specified")])))
      | Some task =>
          if task =? EmptyString then
            (st, Return (Response 400
                           (JObj [("error", JStr "No task specified")])))
          else
            let file_id := uuid4 fr in
            let file_ext := suffix a (filename file) in
            let input_filename := file_id ++ file_ext in
            let output_filename := file_id ++ "_output" ++ file_ext in
            let input_path := joinpath a (INPUT_PATH a) input_filename in
            let output_path := joinpath a (OUTPUT_PATH a) output_filename in
            let st1 := mkState (queue_jobs st)
                               ((saved_files st
                                 ++ [(input_path, content file)])%list) in
            match parse_params a params with
            | Raise e => (st1, Raise e)
            | Return params_dict =>
                let job_payload := JObj [("task", JStr task);
                                         ("input_path", JStr input_path);
                                         ("output_path", JStr output_path);
                                         ("params", params_dict)] in
                let '(st2, job) := queue_enqueue a fr st1 job_payload in
                (st2,
                 Return (jsonify
                   (JObj [("job_id", JStr (id job));
                          ("status", JStr (status_str (status job)));
                          ("input_path", JStr input_path);
                          ("output_path", JStr output_path)])))
            end
      end
  end.

(** Line 133: the text that [process_file] parses as params, which is
    the form field, or the text of an empty object when the field is
    absent. *)
Definition params_text (req : Request) : string :=
  match form_params req with
  | Some p => p
  | None => "{}"
  end.

(** The Redis connection as [get_job] uses it: [Job.fetch(job_id,
    connection=redis_conn)], which returns the job or raises, and the text
    that [job.exc_info] holds for the exception of a failed job. *)
Record Redis : Type := mkRedis {
  fetch : string -> outcome Job;
  exc_text : pyexc -> string
}.

(** [t if t is not None else None], for the two attributes that are
    serialised as they are. *)
Definition or_null (v : option json) : json :=
  match v with
  | Some x => x
  | None => JNull
  end.

(** Lines 45-65. Every exception of the [try] block is answered 404 with
    its text. *)
Definition get_job (a : Env) (r : Redis) (job_id : string) : http :=
  match fetch r job_id with
  | Return job =>
      jsonify
        (JObj [("id", JStr (id job));
               ("status", JStr (status_str (status job)));
               ("created_at", iso_or_none a (created_at job));
               ("enqueued_at", iso_or_none a (enqueued_at job));
               ("started_at", iso_or_none a (started_at job));
               ("ended_at", iso_or_none a (ended_at job));
               ("result", or_null (result job));
               ("exc_info",
                or_null (option_map (fun e => JStr (exc_text r e))
                                    (exc_info job)))])
  | Raise e => Response 404 (JObj [("error", JStr (exc_str e))])
  end.

(** Lines 68-89 *)
Definition upload_file (a : Env) (fr : Fresh) (st : AppState) (req : Request)
  : AppState * http :=
  match files_file req with
  | None => (st, Response 400 (JObj [("error", JStr "No file provided")]))
  | Some file =>
      if filename file =? EmptyString then
        (st, Response 400 (JObj [("error", JStr "Empty filename")]))
      else
        let file_id := uuid4 fr in
        let file_ext := suffix a (filename file) in
        let input_filename := file_id ++ file_ext in
        let input_path := joinpath a (INPUT_PATH a) input_filename in
        let st1 := mkState (queue_jobs st)
                           ((saved_files st
                             ++ [(input_path, content file)])%list) in
        (st1, jsonify (JObj [("file_id", JStr file_id);
                             ("filename", JStr input_filename);
                             ("path", JStr input_path)]))
  end.

End App.

(* ================================================================= *)
(** ** A fragment of the [json] library, for running the examples *)

(** The models above take [json.loads], [json.dumps] and [str] from their
    environment. To evaluate them on concrete documents this module reads
    and writes the JSON documents made of objects, arrays, strings with
    the one-letter escapes, integers, booleans and null. Fractions,
    exponents and unicode escapes are outside the fragment: [loads] calls
    them malformed, and the examples use none. *)
Module JsonText.
Import Py.

Definition is_ws (c : ascii) : bool :=
  (c =? " ")%char || (c =? "009")%char || (c =? "010")%char || (c =? "013")%char.

Fixpoint skip_ws (s : string) : string :=
  match s with
  | String c rest => if is_ws c then skip_ws rest else s
  | EmptyString => s
  end.

Definition is_digit (c : ascii) : bool :=
  (48 <=? nat_of_ascii c)%nat && (nat_of_ascii c <=? 57)%nat.

Definition digit_val (c : ascii) : Z := Z.of_nat (nat_of_ascii c - 48).

(** Digits of an integer, most significant first. *)
Fixpoint read_digits (s : string) (acc : Z) : Z * string :=
  match s with
  | String c rest =>
      if is_digit c then read_digits rest (10 * acc + digit_val c)%Z
      else (acc, s)
  | EmptyString => (acc, s)
  end.

Definition starts_fraction (s : string) : bool :=
  match s with
  | String c _ => (c =? ".")%char || (c =? "e")%char || (c =? "E")%char
  | EmptyString => false
  end.

(** A JSON integer without sign: a lone 0, or digits that do not start
    with 0; not followed by a fraction or an exponent. *)
Definition read_nat (s : string) : option (Z * string) :=
  match s with
  | String c rest =>
      if (c =? "0")%char then
        if starts_fraction rest then None else Some (0%Z, rest)
      else if is_digit c then
        let '(n, rest') := read_digits s 0 in
        if starts_fraction rest' then None else Some (n, rest')
      else None
  | EmptyString => None
  end.

Definition read_int (s : string) : option (Z * string) :=
  match s with
  | String c rest =>
      if (c =? "-")%char then
        match read_nat rest with
        | Some (n, rest') => Some ((- n)%Z, rest')
        | None => None
        end
      else read_nat s
  | EmptyString => None
  end.

Definition unescape (c : ascii) : option ascii :=
  if (c =? "034")%char then Some "034"%char
  else if (c =? "\")%char then Some "\"%char
  else if (c =? "/")%char then Some "/"%char
  else if (c =? "b")%char then Some "008"%char
  else if (c =? "f")%char then Some "012"%char
  else if (c =? "n")%char then Some "010"%char
  else if (c =? "r")%char then Some "013"%char
  else if (c =? "t")%char then Some "009"%char
  else None.

(** The characters of a string up to its closing quote; a raw control
    character is refused. *)
Fixpoint read_string (s : string) : option (string * string) :=
  match s with
  | EmptyString => None
  | String c rest =>
      if (c =? "034")%char then Some (EmptyString, rest)
      else if (c =? "\")%char then
        match rest with
        | String e rest' =>
            match unescape e, read_string rest' with
            | Some x, Some (body, tail) => Some (String x body, tail)
            | _, _ => None
            end
        | EmptyString => None
        end
      else if (nat_of_ascii c <? 32)%nat then None
      else
        match read_string rest with
        | Some (body, tail) => Some (String c body, tail)
        | None => None
        end
  end.

(** [s] without its prefix [word], if it starts with it. *)
Fixpoint expect (word : string) (s : string) : option string :=
  match word, s with
  | EmptyString, _ => Some s
  | String a word', String b s' =>
      if (a =? b)%char then expect word' s' else None
  | String _ _, EmptyString => None
  end.

(** The outcome of reading a part of the text: a value and the rest of
    the text, or the text is malformed, or a container is nested deeper
    than the reader may go. *)
Inductive reading (A : Type) : Type :=
| Read (a : A) (rest : string)
| Bad
| Deep (container : string).
Arguments Read {A} a rest.
Arguments Bad {A}.
Arguments Deep {A} container.

Definition of_option {A : Type} (o : option (A * string)) : reading A :=
  match o with
  | Some (x, rest) => Read x rest
  | None => Bad
  end.

(** One value, then the rest of the text. [elements] continues an array
    after its first value, [members] an object after its first member.
    [depth] is how many containers may still be entered. *)
Fixpoint value (fuel depth : nat) (s : string) : reading json :=
  match fuel with
  | O => Bad
  | S fuel' =>
      match skip_ws s with
      | EmptyString => Bad
      | String c rest =>
          if (c =? "n")%char then
            of_option (option_map (fun r => (JNull, r)) (expect "ull" rest))
          else if (c =? "t")%char then
            of_option (option_map (fun r => (JBool true, r))
                                  (expect "rue" rest))
          else if (c =? "f")%char then
            of_option (option_map (fun r => (JBool false, r))
                                  (expect "alse" rest))
          else if (c =? "034")%char then
            of_option (option_map (fun '(x, r) => (JStr x, r))
                                  (read_string rest))
          else if (c =? "[")%char then
            match depth with
            | O => Deep "array"
            | S depth' =>
                match skip_ws rest with
                | String "]" r => Read (JArr []) r
                | _ =>
                    match value fuel' depth' rest with
                    | Read v r =>
                        match elements fuel' depth' r with
                        | Read l r' => Read (JArr (v :: l)) r'
                        | Bad => Bad
                        | Deep container => Deep container
                        end
                    | Bad => Bad
                    | Deep container => Deep container
                    end
                end
            end
          else if (c =? "{")%char then
            match depth with
            | O => Deep "object"
            | S depth' =>
                match skip_ws rest with
                | String "}" r => Read (JObj []) r
                | _ =>
                    match members fuel' depth' rest [] with
                    | Read d r => Read (JObj d) r
                    | Bad => Bad
                    | Deep container => Deep container
                    end
                end
            end
          else
            of_option (option_map (fun '(n, r) => (JInt n, r))
                                  (read_int (String c rest)))
      end
  end

with elements (fuel depth : nat) (s : string) : reading (list json) :=
  match fuel with
  | O => Bad
  | S fuel' =>
      match skip_ws s with
      | String "]" r => Read [] r
      | String "," r =>
          match value fuel' depth r with
          | Read v r' =>
              match elements fuel' depth r' with
              | Read l r'' => Read (v :: l) r''
              | Bad => Bad
              | Deep container => Deep container
              end
          | Bad => Bad
          | Deep container => Deep container
          end
      | _ => Bad
      end
  end

with members (fuel depth : nat) (s : string) (acc : list (string * json))
  : reading (list (string * json)) :=
  match fuel with
  | O => Bad
  | S fuel' =>
      match skip_ws s with
      | String "034" r =>
          match read_string r with
          | Some (k, r1) =>
              match skip_ws r1 with
              | String ":" r2 =>
                  match value fuel' depth r2 with
                  | Read v r3 =>
                      let acc' := dict_set acc k v in
                      match skip_ws r3 with
                      | String "}" r4 => Read acc' r4
                      | String "," r4 => members fuel' depth r4 acc'
                      | _ => Bad
                      end
                  | Bad => Bad
                  | Deep container => Deep container
                  end
              | _ => Bad
              end
          | None => Bad
          end
      | _ => Bad
      end
  end.

(** The interpreter's default recursion limit. The frames of the caller
    count against it too, so the reader of the library gives up somewhat
    earlier than this one; the examples nest either a few levels or more
    than the limit. *)
Definition recursion_limit : nat := 1000.

(** The whole text is one value, white space around it allowed. The
    text of a [JSONDecodeError] is of no consequence to the callers,
    which discard it. *)
Definition loads (s : string) : loads_result :=
  match value (S (String.length s)) recursion_limit s with
  | Read v rest =>
      match skip_ws rest with
      | EmptyString => Loaded v
      | _ => Malformed "Extra data"
      end
  | Bad => Malformed "Expecting value"
  | Deep container =>
      Aborted NestingTooDeep
        ("maximum recursion depth exceeded while decoding a JSON "
         ++ container ++ " from a unicode string")
  end.

End JsonText.

(* ================================================================= *)
(** ** Writers of the same fragment, and concrete environments *)

Module Fixtures.
Import Py Rq.

Definition hex_digit (n : nat) : ascii :=
  if (n <? 10)%nat then ascii_of_nat (48 + n) else ascii_of_nat (87 + n).

(** One character inside a JSON string, as [json.dumps] writes it. *)
Definition escape_char (c : ascii) : string :=
  if (c =? "034")%char then "\" ++ dq
  else if (c =? "\")%char then "\\"
  else if (c =? "010")%char then "\n"
  else if (c =? "013")%char then "\r"
  else if (c =? "009")%char then "\t"
  else if (c =? "008")%char then "\b"
  else if (c =? "012")%char then "\f"
  else if (nat_of_ascii c <? 32)%nat then
    "\u00" ++ String (hex_digit (nat_of_ascii c / 16))
                (String (hex_digit (nat_of_ascii c mod 16)) EmptyString)
  else String c EmptyString.

Fixpoint escape (s : string) : string :=
  match s with
  | EmptyString => EmptyString
  | String c rest => escape_char c ++ escape rest
  end.

Definition quoted (s : string) : string := dq ++ escape s ++ dq.

(** [json.dumps] with its default separators, on values without floats. *)
Fixpoint dumps (v : json) : string :=
  match v with
  | JNull => "null"
  | JBool true => "true"
  | JBool false => "false"
  | JInt z => str_int z
  | JFloat _ => "NaN"
  | JStr s => quoted s
  | JArr l =>
      "[" ++ (fix items (l : list json) : string :=
                match l with
                | [] => EmptyString
                | x :: rest =>
                    dumps x ++ match rest with
                               | [] => EmptyString
                               | _ => ", " ++ items rest
                               end
                end) l ++ "]"
  | JObj d =>
      "{" ++ (fix members (d : list (string * json)) : string :=
                match d with
                | [] => EmptyString
                | (k, x) :: rest =>
                    quoted k ++ ": " ++ dumps x
                    ++ match rest with
                       | [] => EmptyString
                       | _ => ", " ++ members rest
                       end
                end) d ++ "}"
  end.

(** [repr] of a list or dict, for strings that hold no quote, backslash
    or control character. *)
Fixpoint repr (v : json) : string :=
  match v with
  | JNull => "None"
  | JBool true => "True"
  | JBool false => "False"
  | JInt z => str_int z
  | JFloat _ => "nan"
  | JStr s => "'" ++ s ++ "'"
  | JArr l =>
      "[" ++ (fix items (l : list json) : string :=
                match l with
                | [] => EmptyString
                | x :: rest =>
                    repr x ++ match rest with
                              | [] => EmptyString
                              | _ => ", " ++ items rest
                              end
                end) l ++ "]"
  | JObj d =>
      "{" ++ (fix members (d : list (string * json)) : string :=
                match d with
                | [] => EmptyString
                | (k, x) :: rest =>
                    "'" ++ k ++ "': " ++ repr x
                    ++ match rest with
                       | [] => EmptyString
                       | _ => ", " ++ members rest
                       end
                end) d ++ "}"
  end.

(** A worker installation whose binary is [present] or not, and whose
    process behaves as [b] whatever it is given. The time budget is the
    one of the shipped settings. *)
Definition worker_env (present : bool) (b : Worker.behaviour) : Worker.Env :=
  Worker.mkEnv "/app/rust_worker/target/release/rust_worker" 300
               present (fun _ _ => b) dumps JsonText.loads repr.

(** [n] in decimal, at least [width] digits. *)
Definition pad (width : nat) (n : Z) : string :=
  let digits := str_int n in
  let fix zeros (k : nat) : string :=
    match k with
    | O => EmptyString
    | S k' => String "0" (zeros k')
    end in
  zeros (width - String.length digits) ++ digits.

(** [datetime.isoformat()] of a datetime without time zone. *)
Definition isoformat (t : datetime) : string :=
  pad 4 (year t) ++ "-" ++ pad 2 (month t) ++ "-" ++ pad 2 (day t)
  ++ "T" ++ pad 2 (hour t) ++ ":" ++ pad 2 (minute t) ++ ":" ++ pad 2 (second t)
  ++ (if (microsecond t =? 0)%Z then EmptyString else "." ++ pad 6 (microsecond t)).

(** The extension of a file name without directories: from its last dot,
    unless that dot starts or ends the name. *)
Fixpoint last_dot (s : string) : option string :=
  match s with
  | EmptyString => None
  | String c rest =>
      match last_dot rest with
      | Some ext => Some ext
      | None => if (c =? ".")%char then Some s else None
      end
  end.

Definition suffix (name : string) : string :=
  match name with
  | EmptyString => EmptyString
  | String _ rest =>
      match last_dot rest with
      | Some ext => if (String.length ext =? 1)%nat then EmptyString else ext
      | None => EmptyString
      end
  end.

Definition joinpath (dir name : string) : string := dir ++ "/" ++ name.

Definition app_env : App.Env :=
  App.mkEnv "/data/input" "/data/output" 300 suffix joinpath isoformat
            JsonText.loads.

Definition t0 : datetime := mkDatetime 2024 5 17 9 30 0 0.
Definition t1 : datetime := mkDatetime 2024 5 17 9 30 2 250000.
Definition t2 : datetime := mkDatetime 2024 5 17 9 31 0 0.
Definition t3 : datetime := mkDatetime 2024 5 17 9 31 0 4100.

Definition fresh : App.Fresh :=
  App.mkFresh "3f2b8c1e-0d4a-4b6f-9a57-1c2d3e4f5a6b"
              "7a1d9e04-52c3-4f8e-b6a0-9d8c7b6a5f4e" t2 t3.

Definition payload : json :=
  JObj [("task", JStr "calculate_sha256");
        ("input_path", JStr "/data/input/a.bin");
        ("output_path", JStr "/data/output/a.txt");
        ("params", JObj [])].

(** A job as the queue hands it to a dispatcher. *)
Definition pending_job : Job :=
  mkJob "j-queued" queued (Some t0) (Some t0) None None None None payload 300.

(** Jobs that workers have taken from the queue. *)
Definition started_job : Job :=
  mkJob "j-started" started (Some t0) (Some t0) (Some t1) None None None
        payload 300.

Definition finished_job : Job :=
  mkJob "j-finished" finished (Some t0) (Some t0) (Some t1) (Some t2)
        (Some (JObj [("success", JBool true)])) None payload 300.

Definition failed_job : Job :=
  mkJob "j-failed" failed (Some t0) (Some t0) (Some t1) (Some t2) None
        (Some (mkExc RuntimeError "Job timed out after 300 seconds"))
        payload 300.

(** The jobs waiting in the queue, and all the jobs the connection can
    fetch: a job that a worker has taken is no longer in the queue. *)
Definition waiting_jobs : list Job :=
  [ pending_job;
    mkJob "j-waiting" queued (Some t1) (Some t1) None None None None
          payload 300 ].

Definition known_jobs : list Job :=
  (waiting_jobs ++ [started_job; finished_job; failed_job])%list.

Definition store : App.AppState := App.mkState waiting_jobs [].

(** The two worker outputs of the specification's examples. *)
Definition hash_document : string :=
  "{" ++ dq ++ "success" ++ dq ++ ":true,"
      ++ dq ++ "hash" ++ dq ++ ":" ++ dq ++ "abc" ++ dq ++ "}".

Definition bad_input_document : string :=
  "{" ++ dq ++ "message" ++ dq ++ ":" ++ dq ++ "bad input" ++ dq ++ "}".

Definition hash_run : Worker.CompletedProcess :=
  Worker.mkCompleted 0 hash_document EmptyString.

Definition plain_run : Worker.CompletedProcess :=
  Worker.mkCompleted 0 "done in 3s" "warning: slow disk".

Definition bad_input_run : Worker.CompletedProcess :=
  Worker.mkCompleted 1 bad_input_document EmptyString.

Definition crash_run : Worker.CompletedProcess :=
  Worker.mkCompleted (-11) EmptyString "Segmentation fault".

Definition hash_worker : Worker.Env :=
  worker_env true (Worker.ExitsInTime hash_run).
Definition plain_worker : Worker.Env :=
  worker_env true (Worker.ExitsInTime plain_run).
Definition bad_input_worker : Worker.Env :=
  worker_env true (Worker.ExitsInTime bad_input_run).
Definition crash_worker : Worker.Env :=
  worker_env true (Worker.ExitsInTime crash_run).
Definition hung_worker : Worker.Env :=
  worker_env true Worker.StillRunning.
Definition absent_worker : Worker.Env :=
  worker_env false Worker.StillRunning.

(** Submissions: one without output_path, one complete without params. *)
Definition body_without_output : list (string * json) :=
  [("task", JStr "calculate_sha256");
   ("input_path", JStr "/data/input/a.bin")].

Definition body_complete : list (string * json) :=
  [("task", JStr "calculate_sha256");
   ("input_path", JStr "/data/input/a.bin");
   ("output_path", JStr "/data/output/a.txt")].

(** Upload requests whose params field is not JSON, with and without the
    file part. *)
Definition clip : App.FileStorage := App.mkFile "clip.mp4" "....".

Definition upload_request : App.Request :=
  App.mkRequest (Some clip) (Some "resize_to_720p") (Some "width=1280").

Definition upload_without_file : App.Request :=
  App.mkRequest None (Some "resize_to_720p") (Some "width=1280").

(** Workers that exit with status 2 and print an object without message,
    an array, or nothing that is JSON; and one that cannot be started. *)
Definition empty_object_run : Worker.CompletedProcess :=
  Worker.mkCompleted 2 "{}" EmptyString.

Definition array_run : Worker.CompletedProcess :=
  Worker.mkCompleted 2 "[1, 2]" EmptyString.

Definition empty_object_worker : Worker.Env :=
  worker_env true (Worker.ExitsInTime empty_object_run).
Definition array_worker : Worker.Env :=
  worker_env true (Worker.ExitsInTime array_run).

Definition permission_denied : pyexc :=
  mkExc OSError "[Errno 13] Permission denied".

Definition unstartable_worker : Worker.Env :=
  worker_env true (Worker.SpawnFails permission_denied).

(** A Redis connection that knows the five jobs; an unknown id raises
    (RQ's NoSuchJobError, of which [get_job] reads the text only). *)
Definition fetch_from (jobs : list Job) (job_id : string) : outcome Job :=
  match find (fun job => id job =? job_id) jobs with
  | Some job => Return job
  | None => Raise (mkExc KeyError ("No such job: rq:job:" ++ job_id))
  end.

Definition redis : App.Redis :=
  App.mkRedis (fetch_from known_jobs)
              (fun e => "Traceback (most recent call last): " ++ exc_str e).

(** Upload requests: a file without a name, and params that are JSON but
    no mapping. *)
Definition nameless : App.FileStorage := App.mkFile EmptyString "....".

Definition nameless_request : App.Request :=
  App.mkRequest (Some nameless) (Some "resize_to_720p") None.


(** A text of 1100 opening brackets: no JSON document, and nested deeper
    than [json.loads] goes. *)
Fixpoint brackets (n : nat) : string :=
  match n with
  | O => EmptyString
  | S n' => String "[" (brackets n')
  end.

Definition deep_document : string := brackets 1100.

Definition deep_run : Worker.CompletedProcess :=
  Worker.mkCompleted 0 deep_document EmptyString.

Definition deep_worker : Worker.Env :=
  worker_env true (Worker.ExitsInTime deep_run).


(** A worker whose output is not text. *)
Definition binary_worker : Worker.Env :=
  worker_env true
    (Worker.OutputNotText
       "'utf-8' codec can't decode byte 0xff in position 0: invalid start byte").

End Fixtures.

(* ================================================================= *)
(** ** Properties of the bridge *)

Section BridgeProperties.
Import Py Worker Rq.

Variable w : Worker.Env.

Lemma execute_when_exited (job_payload : json) (cp : CompletedProcess) :
  path_exists w = true ->
  os_run w (argv_for w job_payload) (timeout_seconds w) = ExitsInTime cp ->
  execute_rust_worker w job_payload =
    ([Spawned (argv_for w job_payload) (timeout_seconds w)],
     handlers w (if (returncode cp =? 0)%Z
                 then on_success w cp else on_failure w cp)).
Proof.
  intros Hbin Hrun.
  unfold execute_rust_worker, try_body, subprocess_run, argv_for in *.
  rewrite Hbin; cbn [negb].
  rewrite Hrun. reflexivity.
Qed.

(** No exception of [json.loads] is a [TimeoutExpired]. *)
Lemma abort_is_no_timeout (kind : abort_kind) (text : string) :
  exc_class_eqb (exc_type (abort_exc kind text)) TimeoutExpired = false.
Proof. destruct kind; reflexivity. Qed.


(** The failure branch always raises, and never a [TimeoutExpired]. *)
Lemma on_failure_raises (cp : CompletedProcess) :
  exists e, on_failure w cp = Raise e /\
            exc_class_eqb (exc_type e) TimeoutExpired = false.
Proof.
  unfold on_failure.
  destruct (json_loads w (stdout cp)) as [doc|text|kind text].
  - destruct doc; cbn; try (eexists; split; [reflexivity|reflexivity]).
    destruct (dict_lookup items "message");
      cbn; eexists; split; reflexivity.
  - eexists; split; reflexivity.
  - eexists; split; [reflexivity | apply abort_is_no_timeout].
Qed.

Lemma handlers_wrap (e : pyexc) :
  exc_class_eqb (exc_type e) TimeoutExpired = false ->
  handlers w (Raise e) =
    Raise (mkExc RuntimeError ("Failed to execute Rust worker: " ++ exc_str e)).
Proof.
  intros H. unfold handlers. rewrite H. reflexivity.
Qed.

(** The dispatcher's record follows the outcome of the call. *)
Lemma perform_job_returned
  (t_start t_end : datetime) (job : Job) (trace : list event) (v : json) :
  execute_rust_worker w (args job) = (trace, Return v) ->
  perform_job w t_start t_end job =
    (trace, mkJob (id job) finished (created_at job) (enqueued_at job)
                  (Some t_start) (Some t_end) (Some v) None
                  (args job) (job_timeout job)).
Proof. intros E. unfold perform_job. rewrite E. reflexivity. Qed.

Lemma perform_job_raised
  (t_start t_end : datetime) (job : Job) (trace : list event) (e : pyexc) :
  execute_rust_worker w (args job) = (trace, Raise e) ->
  perform_job w t_start t_end job =
    (trace, mkJob (id job) failed (created_at job) (enqueued_at job)
                  (Some t_start) (Some t_end) None (Some e)
                  (args job) (job_timeout job)).
Proof. intros E. unfold perform_job. rewrite E. reflexivity. Qed.

(** One call starts at most one process, always with the configured
    time budget and the payload as its only argument. *)
Lemma trace_shapes (job_payload : json) :
  let spawned := Spawned (argv_for w job_payload) (timeout_seconds w) in
  fst (execute_rust_worker w job_payload) = []
  \/ fst (execute_rust_worker w job_payload) = [spawned]
  \/ fst (execute_rust_worker w job_payload) = [spawned; Killed].
Proof.
  cbn zeta. unfold execute_rust_worker, try_body, subprocess_run, argv_for.
  destruct (path_exists w); cbn [negb fst]; [|now left].
  destruct (os_run w _ _); cbn [fst]; auto.
Qed.

(** Every exception that leaves the [try] block is a [RuntimeError]:
    the only other exception of the function is the one for the missing
    binary. *)
Lemma raised_class (job_payload : json) (e : pyexc) :
  snd (execute_rust_worker w job_payload) = Raise e ->
  exc_type e = RuntimeError \/
  (path_exists w = false /\ e = ExecutorUnavailable w).
Proof.
  unfold execute_rust_worker, ExecutorUnavailable.
  destruct (path_exists w); cbn [negb].
  - destruct (try_body w (json_dumps w job_payload)) as [trace r].
    cbn [snd]. unfold handlers. destruct r as [v|e0]; [discriminate|].
    destruct (exc_class_eqb (exc_type e0) TimeoutExpired);
      intros H; injection H as <-; now left.
  - cbn [snd]. intros H; injection H as <-. now right.
Qed.

(** A failure to start the process is reported with the text of the
    operating system's error; no process exists. *)
Lemma spawn_failure_is_wrapped (job_payload : json) (e : pyexc) :
  path_exists w = true ->
  os_run w (argv_for w job_payload) (timeout_seconds w) = SpawnFails e ->
  exc_class_eqb (exc_type e) TimeoutExpired = false ->
  execute_rust_worker w job_payload =
    ([], Raise (mkExc RuntimeError
                  ("Failed to execute Rust worker: " ++ exc_str e))).
Proof.
  intros Hbin Hrun Hclass.
  unfold execute_rust_worker, try_body, subprocess_run, argv_for in *.
  rewrite Hbin; cbn [negb]. rewrite Hrun. cbn [bind].
  now rewrite (handlers_wrap _ Hclass).
Qed.

(** C3: a process that exits with status 0 and prints a JSON document
    makes [execute_rust_worker] return the parsed document itself, after
    starting that one process; the job ends finished with that document
    as its result. *)
Theorem success_returns_parsed_output
  (t_start t_end : datetime) (job : Job)
  (cp : CompletedProcess) (output : json) :
  path_exists w = true ->
  os_run w (argv_for w (args job)) (timeout_seconds w) = ExitsInTime cp ->
  returncode cp = 0%Z ->
  json_loads w (stdout cp) = Loaded output ->
  execute_rust_worker w (args job) =
    ([Spawned (argv_for w (args job)) (timeout_seconds w)], Return output)
  /\ perform_job w t_start t_end job =
       ([Spawned (argv_for w (args job)) (timeout_seconds w)],
        mkJob (id job) finished (created_at job) (enqueued_at job)
              (Some t_start) (Some t_end) (Some output) None
              (args job) (job_timeout job)).
Proof.
  intros Hbin Hrun Hrc Hparse.
  assert (E : execute_rust_worker w (args job) =
              ([Spawned (argv_for w (args job)) (timeout_seconds w)],
               Return output)).
  { rewrite (execute_when_exited _ _ Hbin Hrun), Hrc.
    cbn [Z.eqb]. unfold on_success. rewrite Hparse. reflexivity. }
  split; [exact E | exact (perform_job_returned _ _ _ _ _ E)].
Qed.

(** C4, as the code has it: a process that exits with status 0 and
    prints text that [json.loads] rejects with a [JSONDecodeError] still
    makes the call return: the value is the envelope with success true,
    the fixed message, and the raw stdout and stderr; the job ends
    finished, not failed. *)
Theorem unparsable_success_returns_envelope
  (t_start t_end : datetime) (job : Job) (cp : CompletedProcess)
  (text : string) :
  path_exists w = true ->
  os_run w (argv_for w (args job)) (timeout_seconds w) = ExitsInTime cp ->
  returncode cp = 0%Z ->
  json_loads w (stdout cp) = Malformed text ->
  let envelope := JObj [("success", JBool true);
                        ("message", JStr "Job completed");
                        ("output", JStr (stdout cp));
                        ("stderr", JStr (stderr cp))] in
  execute_rust_worker w (args job) =
    ([Spawned (argv_for w (args job)) (timeout_seconds w)], Return envelope)
  /\ perform_job w t_start t_end job =
       ([Spawned (argv_for w (args job)) (timeout_seconds w)],
        mkJob (id job) finished (created_at job) (enqueued_at job)
              (Some t_start) (Some t_end) (Some envelope) None
              (args job) (job_timeout job)).
Proof.
  intros Hbin Hrun Hrc Hparse envelope.
  assert (E : execute_rust_worker w (args job) =
              ([Spawned (argv_for w (args job)) (timeout_seconds w)],
               Return envelope)).
  { rewrite (execute_when_exited _ _ Hbin Hrun), Hrc.
    cbn [Z.eqb]. unfold on_success. rewrite Hparse. reflexivity. }
  split; [exact E | exact (perform_job_returned _ _ _ _ _ E)].
Qed.

(** C5: when the process is still running at the end of the time budget,
    which is the configured [timeout_seconds] whatever the payload, the
    process is killed, the call raises the timed-out error, and the job
    it was run for ends failed with no result. *)
Theorem timeout_kills_and_raises
  (t_start t_end : datetime) (job : Job) :
  path_exists w = true ->
  os_run w (argv_for w (args job)) (timeout_seconds w) = StillRunning ->
  execute_rust_worker w (args job) =
    ([Spawned (argv_for w (args job)) (timeout_seconds w); Killed],
     Raise (TimedOut w))
  /\ (forall v, snd (execute_rust_worker w (args job)) <> Return v)
  /\ perform_job w t_start t_end job =
       ([Spawned (argv_for w (args job)) (timeout_seconds w); Killed],
        mkJob (id job) failed (created_at job) (enqueued_at job)
              (Some t_start) (Some t_end) None (Some (TimedOut w))
              (args job) (job_timeout job)).
Proof.
  intros Hbin Hrun.
  assert (E : execute_rust_worker w (args job) =
              ([Spawned (argv_for w (args job)) (timeout_seconds w); Killed],
               Raise (TimedOut w))).
  { unfold execute_rust_worker, try_body, subprocess_run, argv_for in *.
    rewrite Hbin; cbn [negb]. rewrite Hrun. reflexivity. }
  split; [exact E|]. split.
  - rewrite E. intros v H. discriminate H.
  - exact (perform_job_raised _ _ _ _ _ E).
Qed.

(** C6: when the worker binary does not exist the call raises the
    executor-unavailable error and no process is started, so no time
    budget ever begins to run; the job ends failed. *)
Theorem missing_binary_raises_before_spawn
  (t_start t_end : datetime) (job : Job) :
  path_exists w = false ->
  execute_rust_worker w (args job) = ([], Raise (ExecutorUnavailable w))
  /\ perform_job w t_start t_end job =
       ([], mkJob (id job) failed (created_at job) (enqueued_at job)
                  (Some t_start) (Some t_end) None
                  (Some (ExecutorUnavailable w)) (args job) (job_timeout job)).
Proof.
  intros Hbin.
  assert (E : execute_rust_worker w (args job) =
              ([], Raise (ExecutorUnavailable w))).
  { unfold execute_rust_worker, ExecutorUnavailable. rewrite Hbin. reflexivity. }
  split; [exact E | exact (perform_job_raised _ _ _ _ _ E)].
Qed.

(** C10: after a non-zero exit the call always raises a [RuntimeError]
    whose message starts with "Failed to execute Rust worker: ", whether
    stdout was JSON or not. *)
Theorem nonzero_exit_error_is_wrapped
  (job_payload : json) (cp : CompletedProcess) :
  path_exists w = true ->
  os_run w (argv_for w job_payload) (timeout_seconds w) = ExitsInTime cp ->
  returncode cp <> 0%Z ->
  exists rest,
    snd (execute_rust_worker w job_payload) =
      Raise (mkExc RuntimeError ("Failed to execute Rust worker: " ++ rest)).
Proof.
  intros Hbin Hrun Hrc.
  rewrite (execute_when_exited _ _ Hbin Hrun).
  apply Z.eqb_neq in Hrc. rewrite Hrc. cbn [snd].
  destruct (on_failure_raises cp) as (e & He & Hclass).
  rewrite He, (handlers_wrap _ Hclass).
  exists (exc_str e). reflexivity.
Qed.

(** C1, as the code has it: after a non-zero exit with a JSON object on
    stdout that has a [message] field, the job ends failed with a
    [RuntimeError] whose message ends with "Rust worker failed: "
    followed by the text of that field. *)
Theorem failure_message_carries_field
  (t_start t_end : datetime) (job : Job) (cp : CompletedProcess)
  (doc : list (string * json)) (field : json) :
  path_exists w = true ->
  os_run w (argv_for w (args job)) (timeout_seconds w) = ExitsInTime cp ->
  returncode cp <> 0%Z ->
  json_loads w (stdout cp) = Loaded (JObj doc) ->
  dict_lookup doc "message" = Some field ->
  exists before,
    let e := mkExc RuntimeError
               (before ++ "Rust worker failed: " ++ py_str w field) in
    snd (execute_rust_worker w (args job)) = Raise e
    /\ snd (perform_job w t_start t_end job) =
         mkJob (id job) failed (created_at job) (enqueued_at job)
               (Some t_start) (Some t_end) None (Some e)
               (args job) (job_timeout job).
Proof.
  intros Hbin Hrun Hrc Hparse Hfield.
  exists "Failed to execute Rust worker: ". cbn zeta.
  assert (E : execute_rust_worker w (args job) =
              ([Spawned (argv_for w (args job)) (timeout_seconds w)],
               Raise (mkExc RuntimeError
                        ("Failed to execute Rust worker: "
                         ++ "Rust worker failed: " ++ py_str w field)))).
  { rewrite (execute_when_exited _ _ Hbin Hrun).
    apply Z.eqb_neq in Hrc. rewrite Hrc.
    unfold on_failure. rewrite Hparse. cbn [py_get]. rewrite Hfield.
    reflexivity. }
  split.
  - rewrite E. reflexivity.
  - rewrite (perform_job_raised _ _ _ _ _ E). reflexivity.
Qed.

End BridgeProperties.

(* ================================================================= *)
(** ** Properties of the job routes *)

Section RouteProperties.
Import Py Rq App.

Variable a : App.Env.

(** The loop of [list_jobs] builds the projections in queue order. *)
Lemma projection_loop (jobs : list Job) (acc : list json) :
  fold_left (fun acc job => (acc ++ [job_projection a job])%list) jobs acc
  = (acc ++ map (job_projection a) jobs)%list.
Proof.
  revert acc. induction jobs as [|job jobs IH]; intros acc; cbn.
  - now rewrite app_nil_r.
  - rewrite IH, <- app_assoc. reflexivity.
Qed.

Lemma list_jobs_is_map (st : AppState) :
  list_jobs a st =
    jsonify (JObj [("jobs", JArr (map (job_projection a) (queue_jobs st)))]).
Proof.
  unfold list_jobs. rewrite projection_loop. reflexivity.
Qed.

(** C2, as the code has it: in any state, the listing holds one entry
    for each job of the queue, in queue order and whatever status the
    job has, and nothing else; each entry is a mapping with exactly the
    keys id, status, created_at and enqueued_at, holding that job's id,
    the name of its status, and its two timestamps in ISO form, or null
    for a timestamp that is not set. *)
Theorem list_jobs_projects_queue_jobs (st : AppState) :
  list_jobs a st =
    Response 200
      (JObj [("jobs",
              JArr (map (fun job =>
                           JObj [("id", JStr (id job));
                                 ("status",
                                  JStr (match status job with
                                        | queued => "queued"
                                        | started => "started"
                                        | finished => "finished"
                                        | failed => "failed"
                                        end));
                                 ("created_at",
                                  match created_at job with
                                  | Some t => JStr (isoformat a t)
                                  | None => JNull
                                  end);
                                 ("enqueued_at",
                                  match enqueued_at job with
                                  | Some t => JStr (isoformat a t)
                                  | None => JNull
                                  end)])
                        (queue_jobs st)))]).
Proof.
  rewrite list_jobs_is_map. reflexivity.
Qed.

(** What the validation loop finds on a dict. *)
Lemma first_missing_dict (d : list (string * json)) (field : string) :
  In field required_fields ->
  dict_lookup d field = None ->
  exists f, first_missing required_fields (JObj d) = Return (Some f).
Proof.
  intros Hin Hnone. unfold required_fields in *. cbn.
  destruct (dict_lookup d "task") eqn:Ht; cbn; [|eauto].
  destruct (dict_lookup d "input_path") eqn:Hi; cbn; [|eauto].
  destruct (dict_lookup d "output_path") eqn:Ho; cbn; [|eauto].
  cbn in Hin. destruct Hin as [<-|[<-|[<-|[]]]]; congruence.
Qed.

Lemma first_missing_none (d : list (string * json)) (t i o : json) :
  dict_lookup d "task" = Some t ->
  dict_lookup d "input_path" = Some i ->
  dict_lookup d "output_path" = Some o ->
  first_missing required_fields (JObj d) = Return None.
Proof.
  intros Ht Hi Ho. cbn. rewrite Ht, Hi, Ho. reflexivity.
Qed.

(** The payload can only be built from a dict that has the three
    required fields. *)
Lemma make_payload_returns (data job_payload : json) :
  make_payload data = Return job_payload ->
  exists d t i o,
    data = JObj d
    /\ dict_lookup d "task" = Some t
    /\ dict_lookup d "input_path" = Some i
    /\ dict_lookup d "output_path" = Some o.
Proof.
  unfold make_payload. destruct data; cbn; try discriminate.
  destruct (dict_lookup items "task") as [t|] eqn:Ht; cbn; [|discriminate].
  destruct (dict_lookup items "input_path") as [i|] eqn:Hi; cbn;
    [|discriminate].
  destruct (dict_lookup items "output_path") as [o|] eqn:Ho; cbn;
    [|discriminate].
  intros _. exists items, t, i, o. auto.
Qed.

(** Whatever is submitted, the store changes only for an object that has
    the three required fields: any other body, an object or not, leaves the
    queue as it was. *)
Lemma submit_keeps_store_unless_complete
  (fr : Fresh) (st : AppState) (data : json) :
  fst (enqueue_job a fr st data) <> st ->
  exists d t i o,
    data = JObj d
    /\ dict_lookup d "task" = Some t
    /\ dict_lookup d "input_path" = Some i
    /\ dict_lookup d "output_path" = Some o.
Proof.
  unfold enqueue_job.
  destruct (truthy data); cbn [negb]; [|intros H; now contradiction H].
  destruct (first_missing required_fields data) as [[f|]|e];
    try (intros H; now contradiction H).
  destruct (make_payload data) as [job_payload|e] eqn:Hp;
    [|intros H; now contradiction H].
  intros _. exact (make_payload_returns _ _ Hp).
Qed.

(** C7: a submitted object that lacks one of task, input_path and
    output_path gets a 400 response that only carries an error text; the
    store is left as it was, so no job is enqueued and no id is issued. *)
Theorem submit_missing_field_rejected
  (fr : Fresh) (st : AppState) (d : list (string * json)) (field : string) :
  In field required_fields ->
  dict_lookup d field = None ->
  exists text,
    enqueue_job a fr st (JObj d) =
      (st, Return (Response 400 (JObj [("error", JStr text)]))).
Proof.
  intros Hin Hnone. unfold enqueue_job.
  destruct (truthy (JObj d)); cbn [negb]; [|eauto].
  destruct (first_missing_dict d field Hin Hnone) as [f ->]. eauto.
Qed.

(** C8: a submitted object that has task, input_path and output_path gets
    a 200 response with the new job's id, the status queued, and a
    payload that repeats the submitted task, input_path, output_path and
    params (an empty mapping stands for params that were not given); the
    job is appended to the queue. *)
Theorem submit_valid_enqueues
  (fr : Fresh) (st : AppState) (d : list (string * json)) (t i o : json) :
  dict_lookup d "task" = Some t ->
  dict_lookup d "input_path" = Some i ->
  dict_lookup d "output_path" = Some o ->
  let params := match dict_lookup d "params" with
                | Some p => p
                | None => JObj []
                end in
  let echoed := [("task", t); ("input_path", i);
                 ("output_path", o); ("params", params)] in
  enqueue_job a fr st (JObj d) =
    (mkState (queue_jobs st
              ++ [mkJob (new_job_id fr) queued
                        (Some (created_now fr)) (Some (enqueued_now fr))
                        None None None None (JObj echoed)
                        (timeout_seconds a)])%list
             (saved_files st),
     Return (Response 200 (JObj [("job_id", JStr (new_job_id fr));
                                 ("status", JStr "queued");
                                 ("payload", JObj echoed)])))
  /\ (forall k v,
        In k ["task"; "input_path"; "output_path"; "params"] ->
        dict_lookup d k = Some v -> dict_lookup echoed k = Some v).
Proof.
  intros Ht Hi Ho params echoed. split.
  - unfold enqueue_job.
    assert (Htruthy : truthy (JObj d) = true).
    { destruct d; [discriminate Ht | reflexivity]. }
    rewrite Htruthy; cbn [negb].
    rewrite (first_missing_none d t i o Ht Hi Ho).
    unfold make_payload, py_getitem, py_get. rewrite Ht, Hi, Ho. cbn [bind].
    subst echoed params.
    destruct (dict_lookup d "params"); reflexivity.
  - intros k v Hin Hk. subst echoed params. cbn in Hin.
    destruct Hin as [<-|[<-|[<-|[<-|[]]]]]; cbn; try congruence.
    rewrite Hk. reflexivity.
Qed.

(** The two guards of [process_file]: without a file part, or without a
    task, the request is answered 400 and nothing is saved or enqueued. *)
Lemma process_file_guards (fr : Fresh) (st : AppState) (req : Request) :
  files_file req = None \/ form_task req = None
  \/ form_task req = Some EmptyString ->
  exists text,
    process_file a fr st req =
      (st, Return (Response 400 (JObj [("error", JStr text)]))).
Proof.
  unfold process_file. intros [H|[H|H]].
  - rewrite H. eauto.
  - rewrite H. destruct (files_file req); eauto.
  - rewrite H. destruct (files_file req); cbn; eauto.
Qed.


End RouteProperties.

(* ================================================================= *)
(** ** The properties on concrete runs *)

Section Runs.
Import Py Worker Rq App Fixtures.

(** The success example of the specification. *)
Lemma success_returns_parsed_output_witness :
  execute_rust_worker hash_worker payload =
    ([Spawned (argv_for hash_worker payload) 300],
     Return (JObj [("success", JBool true); ("hash", JStr "abc")]))
  /\ perform_job hash_worker t1 t2 pending_job =
       ([Spawned (argv_for hash_worker payload) 300],
        mkJob "j-queued" finished (Some t0) (Some t0) (Some t1) (Some t2)
              (Some (JObj [("success", JBool true); ("hash", JStr "abc")]))
              None payload 300).
Proof.
  apply (success_returns_parsed_output hash_worker t1 t2 pending_job hash_run);
    reflexivity.
Defined.

Lemma unparsable_success_returns_envelope_witness :
  execute_rust_worker plain_worker payload =
    ([Spawned (argv_for plain_worker payload) 300],
     Return (JObj [("success", JBool true);
                   ("message", JStr "Job completed");
                   ("output", JStr "done in 3s");
                   ("stderr", JStr "warning: slow disk")]))
  /\ perform_job plain_worker t1 t2 pending_job =
       ([Spawned (argv_for plain_worker payload) 300],
        mkJob "j-queued" finished (Some t0) (Some t0) (Some t1) (Some t2)
              (Some (JObj [("success", JBool true);
                           ("message", JStr "Job completed");
                           ("output", JStr "done in 3s");
                           ("stderr", JStr "warning: slow disk")]))
              None payload 300).
Proof.
  apply (unparsable_success_returns_envelope
           plain_worker t1 t2 pending_job plain_run "Expecting value");
    reflexivity.
Defined.

(** C4 as it is worded fails for output that is no JSON document
    because it only opens brackets, 1100 of them: the process exits with
    status 0, [json.loads] gives up with a [RecursionError], which the
    inner handler does not catch, and the call raises; the job ends
    failed. *)
Lemma deep_output_fails_after_zero_exit :
  path_exists deep_worker = true
  /\ os_run deep_worker (argv_for deep_worker payload)
            (Worker.timeout_seconds deep_worker) = ExitsInTime deep_run
  /\ returncode deep_run = 0%Z
  /\ stdout deep_run = deep_document
  /\ Worker.json_loads deep_worker deep_document =
       Aborted NestingTooDeep
         ("maximum recursion depth exceeded while decoding "
          ++ "a JSON array from a unicode string")
  /\ snd (execute_rust_worker deep_worker payload) =
       Raise (mkExc RuntimeError
                ("Failed to execute Rust worker: "
                 ++ "maximum recursion depth exceeded while decoding "
                 ++ "a JSON array from a unicode string"))
  /\ status (snd (perform_job deep_worker t1 t2 pending_job)) = failed.
Proof. repeat split; vm_compute; reflexivity. Qed.

Lemma timeout_kills_and_raises_witness :
  execute_rust_worker hung_worker payload =
    ([Spawned (argv_for hung_worker payload) 300; Killed],
     Raise (mkExc RuntimeError "Job timed out after 300 seconds"))
  /\ (forall v, snd (execute_rust_worker hung_worker payload) <> Return v)
  /\ perform_job hung_worker t1 t2 pending_job =
       ([Spawned (argv_for hung_worker payload) 300; Killed],
        mkJob "j-queued" failed (Some t0) (Some t0) (Some t1) (Some t2) None
              (Some (mkExc RuntimeError "Job timed out after 300 seconds"))
              payload 300).
Proof.
  apply (timeout_kills_and_raises hung_worker t1 t2 pending_job);
    reflexivity.
Defined.

Lemma missing_binary_raises_before_spawn_witness :
  execute_rust_worker absent_worker payload =
    ([], Raise (ExecutorUnavailable absent_worker))
  /\ perform_job absent_worker t1 t2 pending_job =
       ([], mkJob "j-queued" failed (Some t0) (Some t0) (Some t1) (Some t2)
                  None (Some (ExecutorUnavailable absent_worker)) payload 300).
Proof.
  apply (missing_binary_raises_before_spawn absent_worker t1 t2 pending_job).
  reflexivity.
Defined.

Lemma nonzero_exit_error_is_wrapped_witness :
  exists rest,
    snd (execute_rust_worker crash_worker payload) =
      Raise (mkExc RuntimeError ("Failed to execute Rust worker: " ++ rest)).
Proof.
  apply (nonzero_exit_error_is_wrapped crash_worker payload crash_run).
  - reflexivity.
  - reflexivity.
  - cbn. lia.
Defined.

Lemma failure_message_carries_field_witness :
  exists before,
    let e := mkExc RuntimeError
               (before ++ "Rust worker failed: " ++ "bad input") in
    snd (execute_rust_worker bad_input_worker payload) = Raise e
    /\ snd (perform_job bad_input_worker t1 t2 pending_job) =
         mkJob "j-queued" failed (Some t0) (Some t0) (Some t1) (Some t2)
               None (Some e) payload 300.
Proof.
  apply (failure_message_carries_field bad_input_worker t1 t2 pending_job
           bad_input_run [("message", JStr "bad input")] (JStr "bad input")).
  - reflexivity.
  - reflexivity.
  - cbn. lia.
  - reflexivity.
  - reflexivity.
Defined.

(** C1 as the specification words it fails on its own example: with exit
    status 1 and the document with message "bad input" on stdout, the
    error stored for the job is not the text "bad input". *)
Lemma stored_message_is_not_the_field_alone :
  path_exists bad_input_worker = true
  /\ os_run bad_input_worker (argv_for bad_input_worker payload)
            (Worker.timeout_seconds bad_input_worker) = ExitsInTime bad_input_run
  /\ returncode bad_input_run = 1%Z
  /\ Worker.json_loads bad_input_worker (stdout bad_input_run)
     = Loaded (JObj [("message", JStr "bad input")])
  /\ status (snd (perform_job bad_input_worker t1 t2 pending_job)) = failed
  /\ exists e,
       exc_info (snd (perform_job bad_input_worker t1 t2 pending_job)) = Some e
       /\ exc_str e
          = "Failed to execute Rust worker: Rust worker failed: bad input"
       /\ exc_str e <> "bad input".
Proof.
  repeat (split; [reflexivity|]).
  eexists. split; [reflexivity|]. split; [reflexivity|].
  cbn. discriminate.
Qed.

(** The other outcomes of a non-zero exit: no JSON on stdout, a document
    without a message, and a document that is not an object. *)
Example crash_message :
  snd (execute_rust_worker crash_worker payload) =
    Raise (mkExc RuntimeError
             ("Failed to execute Rust worker: "
              ++ "Rust worker failed with exit code -11" ++ nl
              ++ "stdout: " ++ nl
              ++ "stderr: Segmentation fault")).
Proof. reflexivity. Qed.

Example message_defaults_to_unknown :
  snd (execute_rust_worker
         (worker_env true (ExitsInTime (mkCompleted 2 "{}" EmptyString)))
         payload) =
    Raise (mkExc RuntimeError
             "Failed to execute Rust worker: Rust worker failed: Unknown error").
Proof. reflexivity. Qed.

Example array_document_has_no_get :
  snd (execute_rust_worker
         (worker_env true (ExitsInTime (mkCompleted 2 "[1, 2]" EmptyString)))
         payload) =
    Raise (mkExc RuntimeError
             "Failed to execute Rust worker: 'list' object has no attribute 'get'").
Proof. reflexivity. Qed.

(** Output that is not text: the process ran and was not killed, and the
    call raises with the decoder's text. *)
Example binary_output_is_wrapped :
  execute_rust_worker binary_worker payload =
    ([Spawned (argv_for binary_worker payload) 300],
     Raise (mkExc RuntimeError
              ("Failed to execute Rust worker: 'utf-8' codec can't decode "
               ++ "byte 0xff in position 0: invalid start byte"))).
Proof. reflexivity. Qed.

(** The listing of the store: the two waiting jobs. *)
Example list_jobs_on_waiting_jobs :
  list_jobs app_env store =
    Response 200
      (JObj [("jobs",
         JArr [JObj [("id", JStr "j-queued"); ("status", JStr "queued");
                     ("created_at", JStr "2024-05-17T09:30:00");
                     ("enqueued_at", JStr "2024-05-17T09:30:00")];
               JObj [("id", JStr "j-waiting"); ("status", JStr "queued");
                     ("created_at", JStr "2024-05-17T09:30:02.250000");
                     ("enqueued_at", JStr "2024-05-17T09:30:02.250000")]])]).
Proof. reflexivity. Qed.

(** C2 as it is worded fails for a job that a worker has taken from the
    queue: the store knows the finished job, the status query returns it,
    and the listing, which reads the queue only, has no entry for it. *)
Lemma finished_job_is_known_but_not_listed :
  fetch redis "j-finished" = Return finished_job
  /\ status finished_job = finished
  /\ (exists document,
        get_job app_env redis "j-finished" = Response 200 (JObj document)
        /\ dict_lookup document "id" = Some (JStr "j-finished")
        /\ dict_lookup document "status" = Some (JStr "finished"))
  /\ exists entries,
       list_jobs app_env store = Response 200 (JObj [("jobs", JArr entries)])
       /\ List.length entries = 2%nat
       /\ forall d,
            In (JObj d) entries ->
            dict_lookup d "id" <> Some (JStr "j-finished").
Proof.
  split; [reflexivity|]. split; [reflexivity|]. split.
  - eexists. repeat split; reflexivity.
  - eexists. split; [reflexivity|]. split; [reflexivity|].
    intros d [H|[H|[]]]; injection H as <-; cbn; discriminate.
Qed.

Lemma submit_missing_field_rejected_witness :
  In "output_path" required_fields
  /\ dict_lookup body_without_output "output_path" = None
  /\ exists text,
       enqueue_job app_env fresh store (JObj body_without_output) =
         (store, Return (Response 400 (JObj [("error", JStr text)]))).
Proof.
  split; [cbn; tauto|]. split; [reflexivity|].
  apply (submit_missing_field_rejected app_env fresh store
           body_without_output "output_path").
  - cbn. tauto.
  - reflexivity.
Defined.

Example submit_missing_field_text :
  enqueue_job app_env fresh store (JObj body_without_output) =
    (store,
     Return (Response 400
               (JObj [("error",
                       JStr "Missing required field: output_path")]))).
Proof. reflexivity. Qed.

(** Bodies that are not objects: a number is not a container, and a list
    of the three names passes the membership tests but cannot be indexed
    by them. Neither enqueues anything. *)
Example submit_number :
  enqueue_job app_env fresh store (JInt 5) =
    (store,
     Raise (mkExc TypeError "argument of type 'int' is not iterable")).
Proof. reflexivity. Qed.

Example submit_list_of_names :
  enqueue_job app_env fresh store
    (JArr [JStr "task"; JStr "input_path"; JStr "output_path"]) =
    (store,
     Raise (mkExc TypeError
              "list indices must be integers or slices, not str")).
Proof. reflexivity. Qed.

Lemma submit_valid_enqueues_witness :
  enqueue_job app_env fresh store (JObj body_complete) =
    (mkState
       (waiting_jobs
        ++ [mkJob (new_job_id fresh) queued (Some t2) (Some t3)
                  None None None None payload 300])%list
       [],
     Return (Response 200
               (JObj [("job_id", JStr (new_job_id fresh));
                      ("status", JStr "queued");
                      ("payload", payload)])))
  /\ (forall k v,
        In k ["task"; "input_path"; "output_path"; "params"] ->
        dict_lookup body_complete k = Some v ->
        dict_lookup [("task", JStr "calculate_sha256");
                     ("input_path", JStr "/data/input/a.bin");
                     ("output_path", JStr "/data/output/a.txt");
                     ("params", JObj [])] k = Some v).
Proof.
  apply (submit_valid_enqueues app_env fresh store body_complete
           (JStr "calculate_sha256") (JStr "/data/input/a.bin")
           (JStr "/data/output/a.txt"));
    reflexivity.
Defined.



End Runs.

(* ================================================================= *)
(** ** More about the bridge: every outcome of a call *)

Section BridgeOutcomes.
Import Py Worker Rq.

Variable w : Worker.Env.

Lemma execute_unfolded (job_payload : json) :
  path_exists w = true ->
  execute_rust_worker w job_payload =
    match os_run w (argv_for w job_payload) (timeout_seconds w) with
    | SpawnFails e => ([], handlers w (Raise e))
    | ExitsInTime cp =>
        ([Spawned (argv_for w job_payload) (timeout_seconds w)],
         handlers w (if (returncode cp =? 0)%Z
                     then on_success w cp else on_failure w cp))
    | OutputNotText text =>
        ([Spawned (argv_for w job_payload) (timeout_seconds w)],
         handlers w (Raise (mkExc UnicodeDecodeError text)))
    | StillRunning =>
        ([Spawned (argv_for w job_payload) (timeout_seconds w); Killed],
         Raise (TimedOut w))
    end.
Proof.
  intros Hbin.
  unfold execute_rust_worker, try_body, subprocess_run, argv_for.
  rewrite Hbin; cbn [negb].
  destruct (os_run w _ _); reflexivity.
Qed.

(** What the handlers make of a raised exception. *)
Lemma handlers_raise (e : pyexc) :
  handlers w (Raise e) = Raise (TimedOut w)
  \/ handlers w (Raise e) =
       Raise (mkExc RuntimeError ("Failed to execute Rust worker: " ++ exc_str e)).
Proof.
  unfold handlers, TimedOut.
  destruct (exc_class_eqb (exc_type e) TimeoutExpired); auto.
Qed.

(** X1: a call returns a value only when the binary exists and the one
    process it started exited with status 0; the value is then the parsed
    stdout, or the envelope around the raw output when stdout is
    malformed JSON. *)
Theorem returns_only_after_zero_exit (job_payload v : json) :
  snd (execute_rust_worker w job_payload) = Return v ->
  path_exists w = true
  /\ exists cp,
       os_run w (argv_for w job_payload) (timeout_seconds w) = ExitsInTime cp
       /\ returncode cp = 0%Z
       /\ fst (execute_rust_worker w job_payload) =
            [Spawned (argv_for w job_payload) (timeout_seconds w)]
       /\ (json_loads w (stdout cp) = Loaded v
           \/ ((exists text, json_loads w (stdout cp) = Malformed text)
               /\ v = JObj [("success", JBool true);
                            ("message", JStr "Job completed");
                            ("output", JStr (stdout cp));
                            ("stderr", JStr (stderr cp))])).
Proof.
  destruct (path_exists w) eqn:Hbin.
  - rewrite (execute_unfolded _ Hbin).
    destruct (os_run w _ _) as [e|cp|text|] eqn:Hrun; cbn [fst snd].
    + destruct (handlers_raise e) as [-> | ->]; discriminate.
    + destruct (returncode cp =? 0)%Z eqn:Hrc.
      * intros H. split; [reflexivity|]. exists cp.
        apply Z.eqb_eq in Hrc. repeat split; try assumption.
        unfold on_success in H.
        destruct (json_loads w (stdout cp)) as [v0|text|kind text].
        -- cbn in H. injection H as <-. now left.
        -- cbn in H. injection H as <-. right. split; eauto.
        -- destruct (handlers_raise (abort_exc kind text)) as [E | E];
             rewrite E in H; discriminate.
      * destruct (on_failure_raises w cp) as (e & -> & Hclass).
        rewrite (handlers_wrap _ _ Hclass). discriminate.
    + destruct (handlers_raise (mkExc UnicodeDecodeError text))
        as [-> | ->]; discriminate.
    + discriminate.
  - unfold execute_rust_worker. rewrite Hbin. cbn. discriminate.
Qed.


(** X3: the process is killed exactly when the binary exists and the
    process is still running at the end of the time budget. *)
Theorem killed_exactly_on_overrun (job_payload : json) :
  In Killed (fst (execute_rust_worker w job_payload))
  <-> (path_exists w = true
       /\ os_run w (argv_for w job_payload) (timeout_seconds w) = StillRunning).
Proof.
  destruct (path_exists w) eqn:Hbin.
  - rewrite (execute_unfolded _ Hbin).
    destruct (os_run w _ _) as [e|cp|text|]; cbn [fst]; split.
    + intros [].
    + intros [_ H]; discriminate.
    + intros [H|[]]; discriminate.
    + intros [_ H]; discriminate.
    + intros [H|[]]; discriminate.
    + intros [_ H]; discriminate.
    + auto.
    + intros _. right. left. reflexivity.
  - unfold execute_rust_worker. rewrite Hbin. cbn. split.
    + intros [].
    + intros [H _]; discriminate.
Qed.

(** X4: when the binary exists but the operating system cannot start
    it, no process exists and the call raises a [RuntimeError] with the
    system's text, which is not the error raised for a missing binary. *)
Theorem spawn_failure_reported (job_payload : json) (e : pyexc) :
  path_exists w = true ->
  os_run w (argv_for w job_payload) (timeout_seconds w) = SpawnFails e ->
  exc_type e = OSError ->
  execute_rust_worker w job_payload =
    ([], Raise (mkExc RuntimeError
                  ("Failed to execute Rust worker: " ++ exc_str e)))
  /\ snd (execute_rust_worker w job_payload) <> Raise (ExecutorUnavailable w).
Proof.
  intros Hbin Hrun Hclass.
  assert (E : execute_rust_worker w job_payload =
              ([], Raise (mkExc RuntimeError
                            ("Failed to execute Rust worker: " ++ exc_str e)))).
  { rewrite (execute_unfolded _ Hbin), Hrun.
    rewrite handlers_wrap; [reflexivity | now rewrite Hclass]. }
  split; [exact E|]. rewrite E. cbn. unfold ExecutorUnavailable.
  intros H. discriminate H.
Qed.

(** X5: after a non-zero exit with text on stdout that [json.loads]
    rejects with a [JSONDecodeError], the message is the prefix of the
    catch-all handler followed by the exit status and the raw stdout and
    stderr, each on its own line. *)
Theorem nonzero_exit_unparsable_message
  (job_payload : json) (cp : CompletedProcess) (text : string) :
  path_exists w = true ->
  os_run w (argv_for w job_payload) (timeout_seconds w) = ExitsInTime cp ->
  returncode cp <> 0%Z ->
  json_loads w (stdout cp) = Malformed text ->
  snd (execute_rust_worker w job_payload) =
    Raise (mkExc RuntimeError
             ("Failed to execute Rust worker: "
              ++ "Rust worker failed with exit code "
              ++ str_int (returncode cp)
              ++ nl ++ "stdout: " ++ stdout cp
              ++ nl ++ "stderr: " ++ stderr cp)).
Proof.
  intros Hbin Hrun Hrc Hparse.
  rewrite (execute_unfolded _ Hbin), Hrun.
  apply Z.eqb_neq in Hrc. rewrite Hrc. cbn [snd].
  unfold on_failure. rewrite Hparse. reflexivity.
Qed.

(** X6: after a non-zero exit with a JSON object on stdout that has no
    [message] field, the error text names an unknown error, whatever else
    the object holds. *)
Theorem nonzero_exit_without_message
  (job_payload : json) (cp : CompletedProcess) (doc : list (string * json)) :
  path_exists w = true ->
  os_run w (argv_for w job_payload) (timeout_seconds w) = ExitsInTime cp ->
  returncode cp <> 0%Z ->
  json_loads w (stdout cp) = Loaded (JObj doc) ->
  dict_lookup doc "message" = None ->
  snd (execute_rust_worker w job_payload) =
    Raise (mkExc RuntimeError
             "Failed to execute Rust worker: Rust worker failed: Unknown error").
Proof.
  intros Hbin Hrun Hrc Hparse Hfield.
  rewrite (execute_unfolded _ Hbin), Hrun.
  apply Z.eqb_neq in Hrc. rewrite Hrc. cbn [snd].
  unfold on_failure. rewrite Hparse. cbn [py_get]. rewrite Hfield.
  reflexivity.
Qed.

(** X7: after a non-zero exit with a JSON document on stdout that is not
    an object, the error text is the one of the failed attribute lookup;
    neither the exit status nor the output of the worker appears in it. *)
Theorem nonzero_exit_non_object_document
  (job_payload : json) (cp : CompletedProcess) (doc : json) :
  path_exists w = true ->
  os_run w (argv_for w job_payload) (timeout_seconds w) = ExitsInTime cp ->
  returncode cp <> 0%Z ->
  json_loads w (stdout cp) = Loaded doc ->
  (forall d, doc <> JObj d) ->
  snd (execute_rust_worker w job_payload) =
    Raise (mkExc RuntimeError
             ("Failed to execute Rust worker: "
              ++ "'" ++ type_name doc ++ "' object has no attribute 'get'")).
Proof.
  intros Hbin Hrun Hrc Hparse Hshape.
  rewrite (execute_unfolded _ Hbin), Hrun.
  apply Z.eqb_neq in Hrc. rewrite Hrc. cbn [snd].
  unfold on_failure. rewrite Hparse.
  destruct doc; try reflexivity.
  now contradiction (Hshape items).
Qed.

End BridgeOutcomes.

(* ================================================================= *)
(** ** More about the routes *)

Section RouteOutcomes.
Import Py Rq App.

Variable a : App.Env.

(** The job that [queue.enqueue] makes of a payload. *)
Lemma queue_enqueue_appends (fr : Fresh) (st : AppState) (job_payload : json) :
  queue_enqueue a fr st job_payload =
    (mkState (queue_jobs st
              ++ [mkJob (new_job_id fr) queued
                        (Some (created_now fr)) (Some (enqueued_now fr))
                        None None None None job_payload
                        (timeout_seconds a)])%list
             (saved_files st),
     mkJob (new_job_id fr) queued
           (Some (created_now fr)) (Some (enqueued_now fr))
           None None None None job_payload (timeout_seconds a)).
Proof. reflexivity. Qed.

Lemma enqueue_job_complete
  (fr : Fresh) (st : AppState) (d : list (string * json)) (t i o : json) :
  dict_lookup d "task" = Some t ->
  dict_lookup d "input_path" = Some i ->
  dict_lookup d "output_path" = Some o ->
  exists params,
    py_get (JObj d) "params" (JObj []) = Return params
    /\ enqueue_job a fr st (JObj d) =
         (fst (queue_enqueue a fr st
                 (JObj [("task", t); ("input_path", i);
                        ("output_path", o); ("params", params)])),
          Return (Response 200
                    (JObj [("job_id", JStr (new_job_id fr));
                           ("status", JStr "queued");
                           ("payload",
                            JObj [("task", t); ("input_path", i);
                                  ("output_path", o); ("params", params)])]))).
Proof.
  intros Ht Hi Ho.
  exists (match dict_lookup d "params" with Some p => p | None => JObj [] end).
  split; [cbn; destruct (dict_lookup d "params"); reflexivity|].
  unfold enqueue_job.
  assert (Htruthy : truthy (JObj d) = true).
  { destruct d; [discriminate Ht | reflexivity]. }
  rewrite Htruthy; cbn [negb].
  rewrite (first_missing_none d t i o Ht Hi Ho).
  unfold make_payload, py_getitem, py_get. rewrite Ht, Hi, Ho. cbn [bind].
  destruct (dict_lookup d "params"); reflexivity.
Qed.

(** The validation loop stops at the first field that a dict lacks. *)
Lemma first_missing_split
  (d : list (string * json)) (before : list string) (field : string)
  (after : list string) :
  (forall g, In g before -> dict_lookup d g <> None) ->
  dict_lookup d field = None ->
  first_missing (before ++ field :: after) (JObj d) = Return (Some field).
Proof.
  intros Hbefore Hfield.
  induction before as [|g before IH]; cbn [app first_missing py_in bind].
  - rewrite Hfield. reflexivity.
  - destruct (dict_lookup d g) eqn:Hg.
    + cbn [negb]. apply IH. intros g' Hin. apply Hbefore. now right.
    + exfalso. apply (Hbefore g); [now left | exact Hg].
Qed.

(** X8: whatever is submitted, either the store is left as it was, or
    the body is an object with task, input_path and output_path and
    exactly one job, queued and carrying the new id, is appended to the
    queue; the saved files are never touched. *)
Theorem submit_changes_store_only_for_complete_object
  (fr : Fresh) (st : AppState) (data : json) :
  fst (enqueue_job a fr st data) = st
  \/ exists d t i o job,
       data = JObj d
       /\ dict_lookup d "task" = Some t
       /\ dict_lookup d "input_path" = Some i
       /\ dict_lookup d "output_path" = Some o
       /\ fst (enqueue_job a fr st data) =
            mkState (queue_jobs st ++ [job])%list (saved_files st)
       /\ id job = new_job_id fr
       /\ status job = queued.
Proof.
  destruct (make_payload data) as [job_payload|e] eqn:Hp.
  - apply make_payload_returns in Hp
      as (d & t & i & o & -> & Ht & Hi & Ho).
    right.
    destruct (enqueue_job_complete fr st d t i o Ht Hi Ho)
      as (params & _ & ->).
    rewrite queue_enqueue_appends. cbn [fst].
    exists d, t, i, o. eexists. repeat split; try eassumption; reflexivity.
  - left. unfold enqueue_job. rewrite Hp.
    destruct (truthy data); cbn [negb]; [|reflexivity].
    destruct (first_missing required_fields data) as [[f|]|e0]; reflexivity.
Qed.

(** X9: for a submitted object, the field named in the 400 response is
    the first of task, input_path, output_path that the object lacks; an
    empty object is answered as if no data had been sent. *)
Theorem submit_reports_first_missing_field
  (fr : Fresh) (st : AppState) (d : list (string * json))
  (before : list string) (field : string) (after : list string) :
  required_fields = (before ++ field :: after)%list ->
  (forall g, In g before -> dict_lookup d g <> None) ->
  dict_lookup d field = None ->
  enqueue_job a fr st (JObj d) =
    (st,
     Return (Response 400
       (JObj [("error",
               JStr (match d with
                     | [] => "No JSON data provided"
                     | _ :: _ => "Missing required field: " ++ field
                     end))]))).
Proof.
  intros Hsplit Hbefore Hfield. unfold enqueue_job.
  destruct d as [|item d'] eqn:Hd; [reflexivity|].
  rewrite <- Hd in *.
  replace (truthy (JObj d)) with true by (rewrite Hd; reflexivity).
  cbn [negb]. rewrite Hsplit.
  rewrite (first_missing_split d before field after Hbefore Hfield).
  reflexivity.
Qed.

(** X10: a body that is not an object never gets a success response and
    never changes the store: it is answered 400, or a [TypeError] leaves
    the function. *)
Theorem submit_non_object_never_succeeds
  (fr : Fresh) (st : AppState) (data : json) :
  (forall d, data <> JObj d) ->
  exists r,
    enqueue_job a fr st data = (st, r)
    /\ ((exists text,
           r = Return (Response 400 (JObj [("error", JStr text)])))
        \/ (exists text, r = Raise (mkExc TypeError text))).
Proof.
  intros Hshape.
  assert (Hp : exists text, make_payload data = Raise (mkExc TypeError text)).
  { destruct data; try (eexists; reflexivity).
    now contradiction (Hshape items). }
  destruct Hp as [text Hp].
  unfold enqueue_job. rewrite Hp.
  destruct (truthy data); cbn [negb].
  - destruct (first_missing required_fields data) as [[f|]|e] eqn:Hm.
    + eexists. split; [reflexivity|]. left. eexists. reflexivity.
    + eexists. split; [reflexivity|]. right. eexists. reflexivity.
    + eexists. split; [reflexivity|]. right.
      destruct data; cbn in Hm;
        try (injection Hm as <-; eexists; reflexivity).
      * repeat match type of Hm with
               | context [if ?b then _ else _] => destruct b; cbn in Hm
               end; discriminate.
      * repeat match type of Hm with
               | context [if ?b then _ else _] => destruct b; cbn in Hm
               end; discriminate.
      * now contradiction (Hshape items).
  - eexists. split; [reflexivity|]. left. eexists. reflexivity.
Qed.

(** X11: after a successful submission the listing is the listing of
    before followed by one entry for the new job, with the id of the
    response, the status queued, and the two times at which the queue
    created and enqueued the job. *)
Theorem submit_then_list
  (fr : Fresh) (st : AppState) (d : list (string * json)) (t i o : json) :
  dict_lookup d "task" = Some t ->
  dict_lookup d "input_path" = Some i ->
  dict_lookup d "output_path" = Some o ->
  list_jobs a (fst (enqueue_job a fr st (JObj d))) =
    Response 200
      (JObj [("jobs",
              JArr (map (job_projection a) (queue_jobs st)
                    ++ [JObj [("id", JStr (new_job_id fr));
                              ("status", JStr "queued");
                              ("created_at",
                               JStr (isoformat a (created_now fr)));
                              ("enqueued_at",
                               JStr (isoformat a (enqueued_now fr)))]])%list)]).
Proof.
  intros Ht Hi Ho.
  destruct (enqueue_job_complete fr st d t i o Ht Hi Ho) as (params & _ & ->).
  rewrite queue_enqueue_appends. cbn [fst].
  rewrite list_jobs_is_map. cbn [queue_jobs]. rewrite map_app. reflexivity.
Qed.

End RouteOutcomes.

(* ================================================================= *)
(** ** Uploads and the status query *)

Section UploadAndStatus.
Import Py Rq App.

Variable a : App.Env.

(** Past its two guards, [process_file] saves the file and then follows
    the parsing of the params. *)
Lemma process_file_past_guards
  (fr : Fresh) (st : AppState) (req : Request)
  (file : FileStorage) (task : string) :
  files_file req = Some file ->
  form_task req = Some task ->
  task <> EmptyString ->
  let ext := suffix a (filename file) in
  let input_path := joinpath a (INPUT_PATH a) (uuid4 fr ++ ext) in
  let output_path := joinpath a (OUTPUT_PATH a) (uuid4 fr ++ "_output" ++ ext) in
  let saved := (saved_files st ++ [(input_path, content file)])%list in
  process_file a fr st req =
    match parse_params a (params_text req) with
    | Raise e => (mkState (queue_jobs st) saved, Raise e)
    | Return params_dict =>
        (mkState (queue_jobs st
                  ++ [mkJob (new_job_id fr) queued
                            (Some (created_now fr)) (Some (enqueued_now fr))
                            None None None None
                            (JObj [("task", JStr task);
                                   ("input_path", JStr input_path);
                                   ("output_path", JStr output_path);
                                   ("params", params_dict)])
                            (timeout_seconds a)])%list
                 saved,
         Return (Response 200 (JObj [("job_id", JStr (new_job_id fr));
                                     ("status", JStr "queued");
                                     ("input_path", JStr input_path);
                                     ("output_path", JStr output_path)])))
    end.
Proof.
  intros Hfile Htask Hne. cbn zeta.
  unfold process_file, params_text. rewrite Hfile, Htask.
  apply String.eqb_neq in Hne. rewrite Hne.
  destruct (parse_params a _); reflexivity.
Qed.

(** The parsing of the params raises only when [json.loads] gives up. *)
Lemma parse_params_outcome (text : string) :
  (exists v, parse_params a text = Return v)
  \/ (exists kind reason,
        json_loads a text = Aborted kind reason
        /\ parse_params a text = Raise (abort_exc kind reason)).
Proof.
  unfold parse_params.
  destruct (json_loads a text) as [v|reason|kind reason]; eauto.
Qed.





(** X15: a file part with an empty name is refused by the plain upload,
    which saves nothing, but passes the guards of upload-and-process,
    which saves it under the generated name whatever the params are, and
    enqueues the job unless [json.loads] gives up on the params. *)
Theorem nameless_file_rejected_by_upload_only
  (fr : Fresh) (st : AppState) (req : Request)
  (file : FileStorage) (task : string) :
  files_file req = Some file ->
  filename file = EmptyString ->
  form_task req = Some task ->
  task <> EmptyString ->
  upload_file a fr st req =
    (st, Response 400 (JObj [("error", JStr "Empty filename")]))
  /\ saved_files (fst (process_file a fr st req)) =
       (saved_files st
        ++ [(joinpath a (INPUT_PATH a) (uuid4 fr ++ suffix a EmptyString),
             content file)])%list
  /\ ((exists job,
         queue_jobs (fst (process_file a fr st req)) =
           (queue_jobs st ++ [job])%list
         /\ id job = new_job_id fr)
      \/ (exists kind reason,
            json_loads a (params_text req) = Aborted kind reason
            /\ queue_jobs (fst (process_file a fr st req)) = queue_jobs st)).
Proof.
  intros Hfile Hname Htask Hne. split.
  - unfold upload_file. rewrite Hfile, Hname. reflexivity.
  - rewrite (process_file_past_guards fr st req file task Hfile Htask Hne).
    rewrite Hname.
    destruct (parse_params_outcome (params_text req))
      as [[v ->] | (kind & reason & Hloads & ->)]; cbn [fst saved_files].
    + split; [reflexivity|]. left. eexists. split; reflexivity.
    + split; [reflexivity|]. right. exists kind, reason.
      split; [exact Hloads | reflexivity].
Qed.


(** X17: the status query answers 200 with exactly the eight fields of
    the job when the fetch returns it, and 404 with the text of the
    exception when the fetch raises, whatever the exception is. *)
Theorem get_job_answers (r : Redis) (job_id : string) :
  (exists job d,
     fetch r job_id = Return job
     /\ get_job a r job_id = Response 200 (JObj d)
     /\ dict_keys d = ["id"; "status"; "created_at"; "enqueued_at";
                       "started_at"; "ended_at"; "result"; "exc_info"]
     /\ dict_lookup d "id" = Some (JStr (id job))
     /\ dict_lookup d "status" = Some (JStr (status_str (status job)))
     /\ dict_lookup d "result" = Some (or_null (result job)))
  \/ (exists e,
        fetch r job_id = Raise e
        /\ get_job a r job_id =
             Response 404 (JObj [("error", JStr (exc_str e))])).
Proof.
  unfold get_job. destruct (fetch r job_id) as [job|e].
  - left. exists job. eexists. split; [reflexivity|].
    split; [reflexivity|]. repeat split; reflexivity.
  - right. exists e. auto.
Qed.

(** X18: for a job of the queue that the fetch returns, the answer of
    the status query is the job's entry in the listing, field for field
    (id, name of the status, the two timestamps in ISO form or null),
    followed by started_at, ended_at, result and exc_info. *)
Theorem get_job_extends_listing_entry
  (r : Redis) (st : AppState) (job : Job) :
  In job (queue_jobs st) ->
  fetch r (id job) = Return job ->
  let iso := fun t : option datetime =>
               match t with
               | Some x => JStr (isoformat a x)
               | None => JNull
               end in
  let entry := [("id", JStr (id job));
                ("status", JStr (match status job with
                                 | queued => "queued"
                                 | started => "started"
                                 | finished => "finished"
                                 | failed => "failed"
                                 end));
                ("created_at", iso (created_at job));
                ("enqueued_at", iso (enqueued_at job))] in
  exists entries,
    list_jobs a st = Response 200 (JObj [("jobs", JArr entries)])
    /\ In (JObj entry) entries
    /\ get_job a r (id job) =
         Response 200
           (JObj (entry
                  ++ [("started_at", iso (started_at job));
                      ("ended_at", iso (ended_at job));
                      ("result", match result job with
                                 | Some v => v
                                 | None => JNull
                                 end);
                      ("exc_info", match exc_info job with
                                   | Some e => JStr (exc_text r e)
                                   | None => JNull
                                   end)])%list).
Proof.
  intros Hin Hfetch iso entry.
  exists (map (job_projection a) (queue_jobs st)).
  split; [apply list_jobs_is_map|]. split.
  - exact (in_map (job_projection a) _ _ Hin).
  - unfold get_job. rewrite Hfetch. subst entry iso. cbn [app].
    destruct (exc_info job); reflexivity.
Qed.

End UploadAndStatus.

(* ================================================================= *)
(** ** The further properties on concrete runs *)

Section MoreRuns.
Import Py Worker Rq App Fixtures.

Lemma returns_only_after_zero_exit_witness :
  path_exists hash_worker = true
  /\ exists cp,
       os_run hash_worker (argv_for hash_worker payload)
              (Worker.timeout_seconds hash_worker) = ExitsInTime cp
       /\ returncode cp = 0%Z
       /\ fst (execute_rust_worker hash_worker payload) =
            [Spawned (argv_for hash_worker payload)
                     (Worker.timeout_seconds hash_worker)]
       /\ (Worker.json_loads hash_worker (stdout cp)
           = Loaded (JObj [("success", JBool true); ("hash", JStr "abc")])
           \/ ((exists text,
                  Worker.json_loads hash_worker (stdout cp) = Malformed text)
               /\ JObj [("success", JBool true); ("hash", JStr "abc")]
                  = JObj [("success", JBool true);
                          ("message", JStr "Job completed");
                          ("output", JStr (stdout cp));
                          ("stderr", JStr (stderr cp))])).
Proof.
  apply (returns_only_after_zero_exit hash_worker payload
           (JObj [("success", JBool true); ("hash", JStr "abc")])).
  reflexivity.
Defined.


Lemma spawn_failure_reported_witness :
  execute_rust_worker unstartable_worker payload =
    ([], Raise (mkExc RuntimeError
                  "Failed to execute Rust worker: [Errno 13] Permission denied"))
  /\ snd (execute_rust_worker unstartable_worker payload)
     <> Raise (ExecutorUnavailable unstartable_worker).
Proof.
  apply (spawn_failure_reported unstartable_worker payload permission_denied);
    reflexivity.
Defined.

Lemma nonzero_exit_unparsable_message_witness :
  snd (execute_rust_worker crash_worker payload) =
    Raise (mkExc RuntimeError
             ("Failed to execute Rust worker: "
              ++ "Rust worker failed with exit code -11"
              ++ nl ++ "stdout: " ++ nl ++ "stderr: Segmentation fault")).
Proof.
  apply (nonzero_exit_unparsable_message crash_worker payload crash_run
           "Expecting value").
  - reflexivity.
  - reflexivity.
  - cbn. lia.
  - reflexivity.
Defined.

Lemma nonzero_exit_without_message_witness :
  snd (execute_rust_worker empty_object_worker payload) =
    Raise (mkExc RuntimeError
             "Failed to execute Rust worker: Rust worker failed: Unknown error").
Proof.
  apply (nonzero_exit_without_message empty_object_worker payload
           empty_object_run []).
  - reflexivity.
  - reflexivity.
  - cbn. lia.
  - reflexivity.
  - reflexivity.
Defined.

Lemma nonzero_exit_non_object_document_witness :
  snd (execute_rust_worker array_worker payload) =
    Raise (mkExc RuntimeError
             "Failed to execute Rust worker: 'list' object has no attribute 'get'").
Proof.
  apply (nonzero_exit_non_object_document array_worker payload array_run
           (JArr [JInt 1; JInt 2])).
  - reflexivity.
  - reflexivity.
  - cbn. lia.
  - reflexivity.
  - intros d H. discriminate H.
Defined.

Lemma submit_reports_first_missing_field_witness :
  enqueue_job app_env fresh store (JObj body_without_output) =
    (store,
     Return (Response 400
               (JObj [("error",
                       JStr "Missing required field: output_path")]))).
Proof.
  apply (submit_reports_first_missing_field app_env fresh store
           body_without_output ["task"; "input_path"] "output_path" []).
  - reflexivity.
  - intros g [<-|[<-|[]]]; cbn; discriminate.
  - reflexivity.
Defined.

Lemma submit_non_object_never_succeeds_witness :
  exists r,
    enqueue_job app_env fresh store (JInt 5) = (store, r)
    /\ ((exists text,
           r = Return (Response 400 (JObj [("error", JStr text)])))
        \/ (exists text, r = Raise (mkExc TypeError text))).
Proof.
  apply (submit_non_object_never_succeeds app_env fresh store (JInt 5)).
  intros d H. discriminate H.
Defined.

Lemma submit_then_list_witness :
  list_jobs app_env
    (fst (enqueue_job app_env fresh store (JObj body_complete))) =
    Response 200
      (JObj [("jobs",
              JArr (map (job_projection app_env) waiting_jobs
                    ++ [JObj [("id", JStr (new_job_id fresh));
                              ("status", JStr "queued");
                              ("created_at", JStr "2024-05-17T09:31:00");
                              ("enqueued_at",
                               JStr "2024-05-17T09:31:00.004100")]])%list)]).
Proof.
  apply (submit_then_list app_env fresh store body_complete
           (JStr "calculate_sha256") (JStr "/data/input/a.bin")
           (JStr "/data/output/a.txt"));
    reflexivity.
Defined.



Lemma nameless_file_rejected_by_upload_only_witness :
  upload_file app_env fresh store nameless_request =
    (store, Response 400 (JObj [("error", JStr "Empty filename")]))
  /\ saved_files (fst (process_file app_env fresh store nameless_request)) =
       [("/data/input/3f2b8c1e-0d4a-4b6f-9a57-1c2d3e4f5a6b", "....")]
  /\ ((exists job,
         queue_jobs (fst (process_file app_env fresh store nameless_request))
         = (waiting_jobs ++ [job])%list
         /\ id job = new_job_id fresh)
      \/ (exists kind reason,
            App.json_loads app_env (params_text nameless_request)
            = Aborted kind reason
            /\ queue_jobs
                 (fst (process_file app_env fresh store nameless_request))
               = waiting_jobs)).
Proof.
  apply (nameless_file_rejected_by_upload_only app_env fresh store
           nameless_request nameless "resize_to_720p").
  - reflexivity.
  - reflexivity.
  - reflexivity.
  - discriminate.
Defined.

Lemma get_job_extends_listing_entry_witness :
  exists entries,
    list_jobs app_env store = Response 200 (JObj [("jobs", JArr entries)])
    /\ In (JObj [("id", JStr "j-queued"); ("status", JStr "queued");
                 ("created_at", JStr "2024-05-17T09:30:00");
                 ("enqueued_at", JStr "2024-05-17T09:30:00")]) entries
    /\ get_job app_env redis "j-queued" =
         Response 200
           (JObj [("id", JStr "j-queued"); ("status", JStr "queued");
                  ("created_at", JStr "2024-05-17T09:30:00");
                  ("enqueued_at", JStr "2024-05-17T09:30:00");
                  ("started_at", JNull); ("ended_at", JNull);
                  ("result", JNull); ("exc_info", JNull)]).
Proof.
  apply (get_job_extends_listing_entry app_env redis store pending_job).
  - cbn. tauto.
  - reflexivity.
Defined.

(** The two outcomes of upload-and-process past its guards: params that
    are malformed, and params on which the parser gives up. *)
Example process_file_on_malformed_params :
  exists job,
    process_file app_env fresh store upload_request =
      (mkState (waiting_jobs ++ [job])%list
         [("/data/input/3f2b8c1e-0d4a-4b6f-9a57-1c2d3e4f5a6b.mp4", "....")],
       Return (Response 200
         (JObj [("job_id", JStr (new_job_id fresh));
                ("status", JStr "queued");
                ("input_path",
                 JStr "/data/input/3f2b8c1e-0d4a-4b6f-9a57-1c2d3e4f5a6b.mp4");
                ("output_path",
                 JStr "/data/output/3f2b8c1e-0d4a-4b6f-9a57-1c2d3e4f5a6b_output.mp4")]))).
Proof. eexists. reflexivity. Qed.

(** The status query on the known jobs: a failed job, which the listing
    no longer shows, and an id that the connection does not know. *)
Example get_job_failed :
  get_job app_env redis "j-failed" =
    Response 200
      (JObj [("id", JStr "j-failed"); ("status", JStr "failed");
             ("created_at", JStr "2024-05-17T09:30:00");
             ("enqueued_at", JStr "2024-05-17T09:30:00");
             ("started_at", JStr "2024-05-17T09:30:02.250000");
             ("ended_at", JStr "2024-05-17T09:31:00");
             ("result", JNull);
             ("exc_info",
              JStr ("Traceback (most recent call last): "
                    ++ "Job timed out after 300 seconds"))]).
Proof. reflexivity. Qed.

Example get_job_unknown :
  get_job app_env redis "j-none" =
    Response 404 (JObj [("error", JStr "No such job: rq:job:j-none")]).
Proof. reflexivity. Qed.

End MoreRuns.
